(** * Assistant migration (src/assistants/migrate.py)

    A shallow embedding of the migration script that copies assistants from
    the OpenAI service to an Azure OpenAI resource, and the properties of it
    that the specification states.

    The script is sequential orchestration of two remote SDK clients, the
    local temporary directory and the logger.  The embedding keeps that shape:

    - the two clients are records of operations whose answers may depend on
      every request sent before (the services are arbitrary deterministic
      state machines);
    - the machine state holds the local files, the log records and the
      requests sent so far;
    - Python control flow (exceptions, [try]/[except Exception], [sys.exit])
      is a state-and-outcome monad. *)

From stdpp Require Import base option list strings gmap pretty.
From Stdlib Require Import ZArith Ascii.

Open Scope string_scope.
Open Scope list_scope.

(** ** Python strings and paths *)

Abbreviation bytes := string (only parsing).

(** [needle in hay] on Python strings. *)
Fixpoint contains (needle hay : string) : bool :=
  String.prefix needle hay ||
  match hay with
  | EmptyString => false
  | String _ hay' => contains needle hay'
  end.

Definition startswith (s pre : string) : bool := String.prefix pre s.

Fixpoint endswith_char (s : string) (c : ascii) : bool :=
  match s with
  | EmptyString => false
  | String c' EmptyString => bool_decide (c' = c)
  | String _ s' => endswith_char s' c
  end.

(** Truth value of a Python string. *)
Definition str_truthy (s : string) : bool :=
  match s with EmptyString => false | String _ _ => true end.

(** [posixpath.join(a, b)]: an absolute [b] replaces [a]; otherwise the two
    are joined with exactly one separator. *)
Definition os_path_join (a b : string) : string :=
  if startswith b "/" then b
  else if negb (str_truthy a) || endswith_char a "/" then a +:+ b
  else a +:+ "/" +:+ b.

Definition newline : string := String "010" EmptyString.

(** [s.split("\n")], used to read the lines of a log message. *)
Fixpoint split_lines_aux (cur : string) (s : string) : list string :=
  match s with
  | EmptyString => [cur]
  | String c s' =>
      if bool_decide (c = "010"%char) then cur :: split_lines_aux EmptyString s'
      else split_lines_aux (cur +:+ String c EmptyString) s'
  end.

Definition split_lines (s : string) : list string := split_lines_aux EmptyString s.

(** ** Data of the two services *)

(** Tool definitions are passed through unmodified. *)
Inductive Tool :=
| ToolCodeInterpreter
| ToolRetrieval
| ToolFunction (spec : string).

(** An assistant object as the source SDK returns it. *)
Record Assistant := {
  asst_id : string;
  asst_name : option string;
  asst_instructions : option string;
  asst_model : string;
  asst_tools : list Tool;
  asst_file_ids : list string;
}.

(** File metadata ([files.retrieve]). *)
Record FileObject := {
  fo_id : string;
  fo_filename : option string;
}.

(** One element of [file_details]: [{"id": file_id, "path": file_path}]. *)
Record FileDetail := {
  fd_id : string;
  fd_path : string;
}.

(** The values stored in the [details] dictionary. *)
Inductive Value :=
| VNone
| VStr (s : string)
| VTools (ts : list Tool)
| VFiles (fs : list FileDetail).

#[global] Instance Tool_eq_dec : EqDecision Tool.
Proof. solve_decision. Defined.

#[global] Instance FileDetail_eq_dec : EqDecision FileDetail.
Proof. solve_decision. Defined.

#[global] Instance Value_eq_dec : EqDecision Value.
Proof. solve_decision. Defined.

(** Truth value of a Python object. *)
Definition truthy (v : Value) : bool :=
  match v with
  | VNone => false
  | VStr s => str_truthy s
  | VTools ts => match ts with [] => false | _ => true end
  | VFiles fs => match fs with [] => false | _ => true end
  end.

Definition of_optional (o : option string) : Value :=
  match o with Some s => VStr s | None => VNone end.

(** [d.get(k)] and [d.get(k, default)] on a [Dict[str, Any]]. *)
Definition dict_get (d : gmap string Value) (k : string) : Value :=
  default VNone (d !! k).

Definition dict_get_default (d : gmap string Value) (k : string) (dflt : Value)
  : Value :=
  default dflt (d !! k).

(** Keyword arguments of [azure_client.beta.assistants.create]. *)
Record CreateRequest := {
  cr_name : Value;
  cr_instructions : Value;
  cr_model : string;
  cr_tools : Value;
  cr_file_ids : list string;
}.

(** ** The migration map

    [migration_map] is a Python [dict]: insertion ordered, assignment to a
    present key keeps its position and replaces its value.  [main] iterates
    over it, so the order is kept. *)

Fixpoint dict_setitem (k v : string) (d : list (string * string))
  : list (string * string) :=
  match d with
  | [] => [(k, v)]
  | (k', v') :: d' =>
      if decide (k = k') then (k, v) :: d'
      else (k', v') :: dict_setitem k v d'
  end.


(** ** Requests, exceptions, log records *)

Definition exn := string.

(** A request sent to one of the two services. *)
Inductive Call :=
| OpenAI_models_list
| OpenAI_assistants_list (limit : nat)
| OpenAI_assistants_retrieve (assistant_id : string)
| OpenAI_files_content (file_id : string)
| OpenAI_files_retrieve (file_id : string)
| Azure_models_list
| Azure_files_create (file : bytes) (purpose : string)
| Azure_assistants_create (req : CreateRequest).

Inductive Level := INFO | ERROR.

(** The messages of the script.  A constant message is its text; a formatted
    message is its template (one constructor per f-string) with the values
    it interpolates. *)
Inductive Msg :=
| Literal (text : string)
| ConnectFailedOpenAI (e : exn)
| ConnectFailedAzure (e : exn)
| Downloading (file_id : string)
| UnableToDownload (file_id : string) (exc : exn)
| SavedTo (file_path : string)
| Uploading (file_path : string)
| Uploaded (response_id : string)
| UploadFailed (e : exn)
| AssistantFetchFailed (exc : exn)
| FetchingDetails (assistant_id : string)
| DetailsFailed (assistant_id : string) (e : exn)
| Creating (name : Value)
| UsingDeployment (target_model : string) (requested : Value)
| Created (response_id : string)
| CreationFailed (exc : exn)
| Migrating (name : option string)
| Migrated (source_id azure_id : string)
| MigrateFailed (source_id : string)
| SummaryLine (source_id target_id : string)
| SummaryCount (n : nat).

Definition LogRecord : Type := Level * Msg.

(** The cursor of [assistants.list(limit=100).auto_paging_iter()]: the items
    it yields, page after page, and the exception that ends the iteration
    when fetching a page fails.  The pages after the first are fetched
    while the cursor is iterated; they are part of the cursor and are not
    recorded as requests of their own. *)
Record Cursor := {
  cur_items : list Assistant;
  cur_error : option exn;
}.

(** ** The clients

    Each operation answers from the requests sent so far (oldest first). *)

Record OpenAIClient := {
  oa_models_list : list Call → exn + unit;
  oa_assistants_list : list Call → nat → exn + Cursor;
  oa_assistants_retrieve : list Call → string → exn + Assistant;
  oa_files_content : list Call → string → exn + bytes;
  oa_files_retrieve : list Call → string → exn + FileObject;
}.

Record AzureClient := {
  az_models_list : list Call → exn + list string;
  az_files_create : list Call → bytes → string → exn + string;
  az_assistants_create : list Call → CreateRequest → exn + string;
}.

Record AssistantMigrator := {
  openai_client : OpenAIClient;
  azure_client : AzureClient;
}.

(** The SDK constructors [OpenAI(api_key=...)] and
    [AzureOpenAI(api_key=..., api_version=..., azure_endpoint=...)]. *)
Record SDK := {
  OpenAI : string → OpenAIClient;
  AzureOpenAI : string → string → string → AzureClient;
}.

(** ** Machine state and the monad *)

Record State := {
  tempdir : string;                      (* tempfile.gettempdir() *)
  writable : string → bool;              (* can open(path, "wb") succeed *)
  files : gmap string bytes;             (* local files *)
  log : list LogRecord;                  (* oldest first *)
  calls : list Call;                     (* oldest first *)
  slept : nat;                           (* seconds spent in time.sleep *)
}.

Inductive outcome (A : Type) :=
| Return (a : A)
| Raise (e : exn)
| SysExit (code : Z).
Arguments Return {A} a.
Arguments Raise {A} e.
Arguments SysExit {A} code.

Definition M (A : Type) : Type := State → State * outcome A.

Definition ret {A} (a : A) : M A := λ s, (s, Return a).

Definition bind {A B} (m : M A) (k : A → M B) : M B :=
  λ s, match m s with
       | (s', Return a) => k a s'
       | (s', Raise e) => (s', Raise e)
       | (s', SysExit c) => (s', SysExit c)
       end.

#[global] Instance M_ret : MRet M := @ret.
#[global] Instance M_bind : MBind M := λ A B k m, bind m k.

Definition raise {A} (e : exn) : M A := λ s, (s, Raise e).

Definition sys_exit {A} (code : Z) : M A := λ s, (s, SysExit code).

(** [try: body except Exception as e: handler(e)].  [SystemExit] is not an
    [Exception] and passes through. *)
Definition try_except {A} (body : M A) (handler : exn → M A) : M A :=
  λ s, match body s with
       | (s', Raise e) => handler e s'
       | r => r
       end.

Definition set_log (l : list LogRecord) (s : State) : State :=
  {| tempdir := tempdir s; writable := writable s; files := files s;
     log := l; calls := calls s; slept := slept s |}.

Definition set_calls (c : list Call) (s : State) : State :=
  {| tempdir := tempdir s; writable := writable s; files := files s;
     log := log s; calls := c; slept := slept s |}.

Definition set_files (f : gmap string bytes) (s : State) : State :=
  {| tempdir := tempdir s; writable := writable s; files := f;
     log := log s; calls := calls s; slept := slept s |}.

Definition set_slept (n : nat) (s : State) : State :=
  {| tempdir := tempdir s; writable := writable s; files := files s;
     log := log s; calls := calls s; slept := n |}.

Definition logger_info (m : Msg) : M unit :=
  λ s, (set_log (log s ++ [(INFO, m)]) s, Return tt).

Definition logger_error (m : Msg) : M unit :=
  λ s, (set_log (log s ++ [(ERROR, m)]) s, Return tt).

(** Send request [c]; the service answers from the requests before it. *)
Definition request {A} (c : Call) (answer : list Call → exn + A) : M A :=
  λ s, (set_calls (calls s ++ [c]) s,
        match answer (calls s) with
        | inl e => Raise e
        | inr a => Return a
        end).

Definition gettempdir : M string := λ s, (s, Return (tempdir s)).

(** [with open(path, "wb") as fp: fp.write(data)] *)
Definition write_file (path : string) (data : bytes) : M unit :=
  λ s, if writable s path
       then (set_files (<[path := data]> (files s)) s, Return tt)
       else (s, Raise "OSError").

(** [open(path, "rb")], with the content later read by the upload. *)
Definition read_file (path : string) : M bytes :=
  λ s, match files s !! path with
       | Some data => (s, Return data)
       | None => (s, Raise "FileNotFoundError")
       end.

Definition time_sleep (seconds : nat) : M unit :=
  λ s, (set_slept (slept s + seconds) s, Return tt).

(** ** The migrator (class [AssistantMigrator]) *)

(** [__init__]: build both clients, then check each connection with a
    [models.list()] call; a failed check logs and exits with status 1. *)
Definition __init__ (sdk : SDK)
    (openai_api_key azure_api_key azure_endpoint azure_api_version : string)
  : M AssistantMigrator :=
  let self := {| openai_client := OpenAI sdk openai_api_key;
                 azure_client := AzureOpenAI sdk azure_api_key
                                   azure_api_version azure_endpoint |} in
  try_except
    (request OpenAI_models_list (oa_models_list (openai_client self));;
     logger_info (Literal "Successfully connected to OpenAI API"))
    (λ e, logger_error (ConnectFailedOpenAI e);; sys_exit 1);;
  try_except
    (request Azure_models_list (az_models_list (azure_client self));;
     logger_info (Literal "Successfully connected to Azure OpenAI API"))
    (λ e, logger_error (ConnectFailedAzure e);; sys_exit 1);;
  mret self.

(** [meta.filename or f"{file_id}.bin"] *)
Definition local_filename (meta : FileObject) (file_id : string) : string :=
  match fo_filename meta with
  | Some name => if str_truthy name then name else file_id +:+ ".bin"
  | None => file_id +:+ ".bin"
  end.

Definition _download_file (self : AssistantMigrator) (file_id : string)
  : M string :=
  logger_info (Downloading file_id);;
  file_bytes ←
    try_except
      (request (OpenAI_files_content file_id)
         (λ h, oa_files_content (openai_client self) h file_id))
      (λ exc, logger_error (UnableToDownload file_id exc);; raise exc);
  meta ← request (OpenAI_files_retrieve file_id)
           (λ h, oa_files_retrieve (openai_client self) h file_id);
  let filename := local_filename meta file_id in
  tmp ← gettempdir;
  let file_path := os_path_join tmp filename in
  write_file file_path file_bytes;;
  logger_info (SavedTo file_path);;
  mret file_path.

Definition _upload_file_to_azure (self : AssistantMigrator) (file_path : string)
  : M (option string) :=
  logger_info (Uploading file_path);;
  try_except
    (f ← read_file file_path;
     response_id ← request (Azure_files_create f "assistants")
                     (λ h, az_files_create (azure_client self) h f "assistants");
     logger_info (Uploaded response_id);;
     mret (Some response_id))
    (λ e, logger_error (UploadFailed e);; mret None).

(** [list(cursor)]: drain the cursor, or raise what it raises. *)
Definition list_of_cursor (c : Cursor) : M (list Assistant) :=
  match cur_error c with
  | Some e => raise e
  | None => mret (cur_items c)
  end.

Definition get_openai_assistants (self : AssistantMigrator)
  : M (list Assistant) :=
  logger_info (Literal "Fetching assistants from OpenAI …");;
  try_except
    (cursor ← request (OpenAI_assistants_list 100)
                (λ h, oa_assistants_list (openai_client self) h 100);
     list_of_cursor cursor)
    (λ exc, logger_error (AssistantFetchFailed exc);; mret []).

(** The [for file_id in assistant.file_ids] loop of [get_assistant_details],
    with the list it appends to. *)
Fixpoint download_files (self : AssistantMigrator) (file_ids : list string)
    (file_details : list FileDetail) : M (list FileDetail) :=
  match file_ids with
  | [] => mret file_details
  | file_id :: rest =>
      file_path ← _download_file self file_id;
      download_files self rest
        (file_details ++ [{| fd_id := file_id; fd_path := file_path |}])
  end.

(** The dictionary [get_assistant_details] returns (lines 115-122). *)
Definition details_dict (assistant : Assistant) (file_details : list FileDetail)
  : gmap string Value :=
  <["id" := VStr (asst_id assistant)]>
  (<["name" := of_optional (asst_name assistant)]>
  (<["instructions" := of_optional (asst_instructions assistant)]>
  (<["model" := VStr (asst_model assistant)]>
  (<["tools" := VTools (asst_tools assistant)]>
  (<["file_details" := VFiles file_details]> ∅))))).

(** The [try] block of [get_assistant_details]. *)
Definition fetch_details (self : AssistantMigrator) (assistant_id : string)
  : M (gmap string Value) :=
  assistant ← request (OpenAI_assistants_retrieve assistant_id)
                (λ h, oa_assistants_retrieve (openai_client self) h assistant_id);
  file_details ← download_files self (asst_file_ids assistant) [];
  mret (details_dict assistant file_details).

Definition get_assistant_details (self : AssistantMigrator)
    (assistant_id : string) : M (gmap string Value) :=
  logger_info (FetchingDetails assistant_id);;
  try_except
    (fetch_details self assistant_id)
    (λ e, logger_error (DetailsFailed assistant_id e);; mret ∅).

(** Iterating over [details.get("file_details", [])] and reading
    [file_detail["path"]] of each element.  The dictionaries built by
    [get_assistant_details] always hold a list of file details there; any
    other non-empty object raises [TypeError] on the first element (outside
    every [try]). *)
Definition file_details_of (details : gmap string Value)
  : M (list FileDetail) :=
  match dict_get_default details "file_details" (VFiles []) with
  | VFiles fs => mret fs
  | VNone => raise "TypeError"
  | v => if truthy v then raise "TypeError" else mret []
  end.

(** The [for file_detail in ...] loop of [create_azure_assistant], with
    the list it appends to. *)
Fixpoint upload_files (self : AssistantMigrator) (fds : list FileDetail)
    (azure_file_ids : list string) : M (list string) :=
  match fds with
  | [] => mret azure_file_ids
  | file_detail :: rest =>
      azure_file_id ← _upload_file_to_azure self (fd_path file_detail);
      match azure_file_id with
      | Some fid =>
          if str_truthy fid then upload_files self rest (azure_file_ids ++ [fid])
          else upload_files self rest azure_file_ids
      | None => upload_files self rest azure_file_ids
      end
  end.

(** [target_model not in deployment_ids] *)
Definition not_in_deployments (target_model : Value)
    (deployment_ids : list string) : bool :=
  match target_model with
  | VStr m => negb (bool_decide (m ∈ deployment_ids))
  | _ => true
  end.

(** [next((d for d in deployment_ids if "gpt-4" in d), None)] *)
Definition next_gpt4 (deployment_ids : list string) : option string :=
  List.find (contains "gpt-4") deployment_ids.

(** [a or b] on optional strings. *)
Definition py_or (a b : option string) : option string :=
  match a with
  | Some x => if str_truthy x then a else b
  | None => b
  end.

(** Lines 143-147: the model the destination assistant will use.  [None]
    stands for Python's [None]; when the requested model is among the
    deployments the result is that very string. *)
Definition resolve_target_model (requested : Value)
    (deployment_ids : list string) : option string :=
  if not_in_deployments requested deployment_ids then
    let gpt4 := next_gpt4 deployment_ids in
    py_or gpt4 (match deployment_ids with d :: _ => Some d | [] => None end)
  else
    match requested with VStr m => Some m | _ => None end.

(** The [try] statement of [create_azure_assistant] (lines 139-166), with
    the destination file ids collected before it. *)
Definition create_with_files (self : AssistantMigrator)
    (details : gmap string Value) (azure_file_ids : list string)
  : M (option string) :=
  try_except
    (deployment_ids ← request Azure_models_list
                        (az_models_list (azure_client self));
     let target_model :=
       resolve_target_model (dict_get details "model") deployment_ids in
     match target_model with
     | Some tm =>
         if negb (str_truthy tm) then
           logger_error (Literal "No deployments available in Azure OpenAI.");;
           mret None
         else
           (if bool_decide (VStr tm ≠ dict_get details "model")
            then logger_info (UsingDeployment tm (dict_get details "model"))
            else mret tt);;
           let req := {| cr_name := dict_get details "name";
                         cr_instructions := dict_get details "instructions";
                         cr_model := tm;
                         cr_tools := dict_get_default details "tools" (VTools []);
                         cr_file_ids := azure_file_ids |} in
           response_id ← request (Azure_assistants_create req)
                           (λ h, az_assistants_create (azure_client self) h req);
           logger_info (Created response_id);;
           mret (Some response_id)
     | None =>
         logger_error (Literal "No deployments available in Azure OpenAI.");;
         mret None
     end)
    (λ exc, logger_error (CreationFailed exc);; mret None).

Definition create_azure_assistant (self : AssistantMigrator)
    (details : gmap string Value) : M (option string) :=
  logger_info (Creating (dict_get details "name"));;
  fds ← file_details_of details;
  azure_file_ids ← upload_files self fds [];
  create_with_files self details azure_file_ids.

(** The body of the [for assistant in cursor] loop (lines 175-188);
    [continue] skips the rest of the body, the pause included.  The SDK's
    assistant objects always carry a [name] attribute (possibly [None]), so
    [getattr(assistant, 'name', assistant.id)] is that attribute. *)
Definition migrate_assistant (self : AssistantMigrator) (assistant : Assistant)
    (migration_map : list (string * string)) : M (list (string * string)) :=
  logger_info (Migrating (asst_name assistant));;
  details ← get_assistant_details self (asst_id assistant);
  if bool_decide (details = ∅) then mret migration_map
  else
    azure_assistant_id ← create_azure_assistant self details;
    migration_map' ←
      match azure_assistant_id with
      | Some aid =>
          if str_truthy aid then
            logger_info (Migrated (asst_id assistant) aid);;
            mret (dict_setitem (asst_id assistant) aid migration_map)
          else
            logger_error (MigrateFailed (asst_id assistant));;
            mret migration_map
      | None =>
          logger_error (MigrateFailed (asst_id assistant));;
          mret migration_map
      end;
    time_sleep 1;;
    mret migration_map'.

Fixpoint migrate_loop (self : AssistantMigrator) (items : list Assistant)
    (migration_map : list (string * string)) : M (list (string * string)) :=
  match items with
  | [] => mret migration_map
  | assistant :: rest =>
      migration_map' ← migrate_assistant self assistant migration_map;
      migrate_loop self rest migration_map'
  end.

(** The loop runs over the cursor itself, outside every [try]: when the
    cursor raises, the exception leaves [migrate_all_assistants]. *)
Definition migrate_all_assistants (self : AssistantMigrator)
  : M (list (string * string)) :=
  cursor ← request (OpenAI_assistants_list 100)
             (λ h, oa_assistants_list (openai_client self) h 100);
  migration_map ← migrate_loop self (cur_items cursor) [];
  match cur_error cursor with
  | Some e => raise e
  | None => mret migration_map
  end.

(** ** The entry point *)

Definition missing_env_text : string :=
  "Please set the following environment variables:" +:+ newline +:+
  "- OPENAI_API_KEY" +:+ newline +:+
  "- AZURE_OPENAI_API_KEY" +:+ newline +:+
  "- AZURE_OPENAI_ENDPOINT".

(** Truth value of [os.environ.get(k)]. *)
Definition opt_truthy (o : option string) : bool :=
  match o with Some s => str_truthy s | None => false end.

(** [all([...])] *)
Definition all (l : list (option string)) : bool := forallb opt_truthy l.

(** The [for source_id, target_id in migration_results.items()] loop. *)
Fixpoint log_summary (items : list (string * string)) : M unit :=
  match items with
  | [] => mret tt
  | (source_id, target_id) :: rest =>
      logger_info (SummaryLine source_id target_id);;
      log_summary rest
  end.

(** [main]; past the check all three values are present, so the [default]s
    below are never used. *)
Definition main (sdk : SDK) (environ : gmap string string) : M unit :=
  let openai_api_key := environ !! "OPENAI_API_KEY" in
  let azure_api_key := environ !! "AZURE_OPENAI_API_KEY" in
  let azure_endpoint := environ !! "AZURE_OPENAI_ENDPOINT" in
  if negb (all [openai_api_key; azure_api_key; azure_endpoint]) then
    logger_error (Literal missing_env_text);;
    sys_exit 1
  else
    migrator ← __init__ sdk (default EmptyString openai_api_key)
                 (default EmptyString azure_api_key)
                 (default EmptyString azure_endpoint)
                 "2023-12-01-preview";
    migration_results ← migrate_all_assistants migrator;
    logger_info (Literal "Migration completed!");;
    logger_info (Literal "Migration summary:");;
    log_summary migration_results;;
    logger_info (SummaryCount (length migration_results)).

(** Exit status of the process for an outcome of [main]: a normal return
    is 0, an uncaught exception is 1, [sys.exit(c)] is [c]. *)
Definition exit_status {A} (o : outcome A) : Z :=
  match o with
  | Return _ => 0
  | Raise _ => 1
  | SysExit c => c
  end.

(** ** Observations on a run *)

(** The log records and the requests a computation added. *)
Definition new_log (s s' : State) : list LogRecord :=
  drop (length (log s)) (log s').

Definition new_calls (s s' : State) : list Call :=
  drop (length (calls s)) (calls s').

Definition is_error {A} (x : exn + A) : bool :=
  match x with inl _ => true | inr _ => false end.

(** Whether request [c], sent after the requests [h], is answered by an
    error. *)
Definition answered_error (self : AssistantMigrator) (h : list Call) (c : Call)
  : bool :=
  match c with
  | OpenAI_models_list => is_error (oa_models_list (openai_client self) h)
  | OpenAI_assistants_list n =>
      is_error (oa_assistants_list (openai_client self) h n)
  | OpenAI_assistants_retrieve aid =>
      is_error (oa_assistants_retrieve (openai_client self) h aid)
  | OpenAI_files_content fid =>
      is_error (oa_files_content (openai_client self) h fid)
  | OpenAI_files_retrieve fid =>
      is_error (oa_files_retrieve (openai_client self) h fid)
  | Azure_models_list => is_error (az_models_list (azure_client self) h)
  | Azure_files_create f p => is_error (az_files_create (azure_client self) h f p)
  | Azure_assistants_create req =>
      is_error (az_assistants_create (azure_client self) h req)
  end.

(** The requests among [cs], sent one after the other after [h], that are
    answered by an error. *)
Fixpoint failures (self : AssistantMigrator) (h : list Call) (cs : list Call)
  : list Call :=
  match cs with
  | [] => []
  | c :: cs' =>
      (if answered_error self h c then [c] else []) ++
      failures self (h ++ [c]) cs'
  end.

Definition is_retrieve (c : Call) : bool :=
  match c with OpenAI_assistants_retrieve _ => true | _ => false end.

Definition is_upload (c : Call) : bool :=
  match c with Azure_files_create _ _ => true | _ => false end.

Definition is_create (c : Call) : bool :=
  match c with Azure_assistants_create _ => true | _ => false end.

(** The three records that close the processing of one assistant. *)
Definition is_mark (r : LogRecord) : bool :=
  match r.2 with
  | DetailsFailed _ _ | Migrated _ _ | MigrateFailed _ => true
  | _ => false
  end.

Definition is_details_failed (r : LogRecord) : bool :=
  match r.2 with DetailsFailed _ _ => true | _ => false end.

Definition is_migrate_failed (r : LogRecord) : bool :=
  match r.2 with MigrateFailed _ => true | _ => false end.

(** The request [create_azure_assistant] builds from the details, the
    resolved model and the destination file ids. *)
Definition create_request (details : gmap string Value) (target_model : string)
    (azure_file_ids : list string) : CreateRequest :=
  {| cr_name := dict_get details "name";
     cr_instructions := dict_get details "instructions";
     cr_model := target_model;
     cr_tools := dict_get_default details "tools" (VTools []);
     cr_file_ids := azure_file_ids |}.

Definition no_deployments : Msg :=
  Literal "No deployments available in Azure OpenAI.".

(** The source id a closing record is about. *)
Definition mark_id (r : LogRecord) : string :=
  match r.2 with
  | DetailsFailed aid _ => aid
  | Migrated sid _ => sid
  | MigrateFailed sid => sid
  | _ => EmptyString
  end.

(** The pairs the [Migrated] records of a log announce, oldest first. *)
Fixpoint migrated_pairs (l : list LogRecord) : list (string * string) :=
  match l with
  | [] => []
  | (_, Migrated sid did) :: l' => (sid, did) :: migrated_pairs l'
  | _ :: l' => migrated_pairs l'
  end.

(** Assigning the pairs [ps], in order, into the dictionary [d]. *)
Definition dict_update (d : list (string * string)) (ps : list (string * string))
  : list (string * string) :=
  foldl (λ d p, dict_setitem p.1 p.2 d) d ps.

(** The three required configuration values of [main]. *)
Definition required_vars : list string :=
  ["OPENAI_API_KEY"; "AZURE_OPENAI_API_KEY"; "AZURE_OPENAI_ENDPOINT"].

(** A message lists the entry [k] when one of its lines is [- k]. *)
Definition lists_entry (text k : string) : Prop :=
  ("- " +:+ k) ∈ split_lines text.

(** A configuration value is missing when it is unset or empty. *)
Definition missing (environ : gmap string string) (k : string) : Prop :=
  opt_truthy (environ !! k) = false.

(** The migrator [main] builds from the environment. *)
Definition configured (sdk : SDK) (environ : gmap string string)
  : AssistantMigrator :=
  {| openai_client :=
       OpenAI sdk (default EmptyString (environ !! "OPENAI_API_KEY"));
     azure_client :=
       AzureOpenAI sdk (default EmptyString (environ !! "AZURE_OPENAI_API_KEY"))
         "2023-12-01-preview"
         (default EmptyString (environ !! "AZURE_OPENAI_ENDPOINT")) |}.

(** ** Vocabulary of the proofs *)

(** [Step s s' l c]: from [s] to [s'] the log grew by [l], the requests by
    [c], and the host is the same. *)
Record Step (s s' : State) (l : list LogRecord) (c : list Call) : Prop := {
  step_tempdir : tempdir s' = tempdir s;
  step_writable : writable s' = writable s;
  step_log : log s' = log s ++ l;
  step_calls : calls s' = calls s ++ c;
}.

(** Unfolding the monad. *)
Ltac unfold_monad :=
  unfold mbind, M_bind, bind, mret, M_ret, ret, raise, sys_exit, try_except,
    gettempdir in *.

Ltac step_tac :=
  split; simpl; rewrite <- ?app_assoc; simpl;
  first [reflexivity | by rewrite ?app_nil_r].

Definition quiet (l : list LogRecord) : Prop := Forall (λ x, is_mark x = false) l.

Definition is_download (c : Call) : bool :=
  match c with
  | OpenAI_files_content _ | OpenAI_files_retrieve _ => true
  | _ => false
  end.

(** What a computation on the source side leaves behind. *)
Definition source_post {A} (self : AssistantMigrator) (s s' : State)
    (r : outcome A) (l : list LogRecord) (c : list Call) : Prop :=
  Step s s' l c ∧ quiet l ∧ Forall (λ x, is_download x = true) c ∧
  match r with
  | Return _ => failures self (calls s) c = []
  | Raise _ => True
  | SysExit _ => False
  end.

Definition upload_post (self : AssistantMigrator) (s s' : State)
    (l : list LogRecord) (c : list Call) : Prop :=
  Step s s' l c ∧ quiet l ∧ Forall (λ x, is_upload x = true) c ∧
  (failures self (calls s) c ≠ [] → ∃ e, (ERROR, UploadFailed e) ∈ l).

(** The result [o], the requests [cc] after the deployment listing and the
    records in [l], from the answers of the destination; [h] is the history
    when the deployments are listed. *)
Definition create_outcome (self : AssistantMigrator) (d : gmap string Value)
    (ids : list string) (h : list Call) (l : list LogRecord) (cc : list Call)
    (o : option string) : Prop :=
  match az_models_list (azure_client self) h with
  | inl e => o = None ∧ cc = [] ∧ (ERROR, CreationFailed e) ∈ l
  | inr ds =>
      match resolve_target_model (dict_get d "model") ds with
      | Some tm =>
          if str_truthy tm then
            let req := create_request d tm ids in
            cc = [Azure_assistants_create req] ∧
            match az_assistants_create (azure_client self)
                    (h ++ [Azure_models_list]) req with
            | inl e => o = None ∧ (ERROR, CreationFailed e) ∈ l
            | inr did => o = Some did ∧ (INFO, Created did) ∈ l
            end
          else o = None ∧ cc = [] ∧ (ERROR, no_deployments) ∈ l
      | None => o = None ∧ cc = [] ∧ (ERROR, no_deployments) ∈ l
      end
  end.

Ltac rewrite_answers :=
  repeat match goal with
    | H : _ = inl _ |- _ => rewrite H
    | H : _ = inr _ |- _ => rewrite H
    | H : resolve_target_model _ _ = _ |- _ => rewrite H
    | H : str_truthy _ = _ |- _ => rewrite H
    end.

(** What processing one assistant leaves behind: the mapping [m'], the log
    records [l] and the requests after the retrieval, [c]. *)
Definition assistant_post (self : AssistantMigrator) (a : Assistant)
    (m : list (string * string)) (s : State) (m' : list (string * string))
    (l : list LogRecord) (c : list Call) : Prop :=
  (∃ e, m' = m ∧ List.filter is_mark l = [(ERROR, DetailsFailed (asst_id a) e)] ∧
        Forall (λ x, is_download x = true) c) ∨
  (∃ r fds cd cu cc ids o,
     oa_assistants_retrieve (openai_client self) (calls s) (asst_id a) = inr r ∧
     c = cd ++ cu ++ Azure_models_list :: cc ∧
     Forall (λ x, is_download x = true) cd ∧
     Forall (λ x, is_upload x = true) cu ∧
     failures self (calls s) (OpenAI_assistants_retrieve (asst_id a) :: cd) = [] ∧
     (failures self (calls s ++ OpenAI_assistants_retrieve (asst_id a) :: cd) cu ≠ [] →
      ∃ e, (ERROR, UploadFailed e) ∈ l) ∧
     create_outcome self (details_dict r fds) ids
       (calls s ++ OpenAI_assistants_retrieve (asst_id a) :: cd ++ cu) l cc o ∧
     match o with
     | Some did =>
         if str_truthy did then
           m' = dict_setitem (asst_id a) did m ∧
           List.filter is_mark l = [(INFO, Migrated (asst_id a) did)]
         else
           m' = m ∧ List.filter is_mark l = [(ERROR, MigrateFailed (asst_id a))]
     | None =>
         m' = m ∧ List.filter is_mark l = [(ERROR, MigrateFailed (asst_id a))]
     end).

(** A run of the loop as a chain of per-assistant steps; each step is
    recorded with the log records and the requests it added. *)
Inductive loop_run (self : AssistantMigrator) :
  list Assistant → list (string * string) → State →
  list (string * string) → State → list (list LogRecord * list Call) → Prop :=
| loop_done m s : loop_run self [] m s m s []
| loop_step a items m s m1 s1 l c m' s' segs :
    Step s s1 l (OpenAI_assistants_retrieve (asst_id a) :: c) →
    assistant_post self a m s m1 l c →
    loop_run self items m1 s1 m' s' segs →
    loop_run self (a :: items) m s m' s'
      ((l, OpenAI_assistants_retrieve (asst_id a) :: c) :: segs).


(** The record that closes the processing of assistant [a]. *)
Definition closing (a : Assistant) (x : LogRecord) : Prop :=
  (∃ e, x = (ERROR, DetailsFailed (asst_id a) e)) ∨
  (∃ did, x = (INFO, Migrated (asst_id a) did)) ∨
  x = (ERROR, MigrateFailed (asst_id a)).

(** Membership in a list given in full. *)
Ltac in_list :=
  repeat first [apply list_elem_of_here | apply list_elem_of_further].

Ltac not_in_list H :=
  repeat (apply elem_of_cons in H as [H|H]; [discriminate H|]);
  by apply elem_of_nil in H.

(** The requests sent for one listing entry: its retrieval, then no other
    retrieval and at most one creation. *)
Definition segment (a : Assistant) (seg : list Call) : Prop :=
  ∃ c, seg = OpenAI_assistants_retrieve (asst_id a) :: c ∧
       Forall (λ x, is_retrieve x = false) c ∧
       (length (List.filter is_create c) ≤ 1)%nat.

(** Membership in a list built with [::] and [++], from the hypotheses. *)
Ltac elem_tac :=
  first
    [ assumption
    | apply list_elem_of_here
    | apply list_elem_of_further; elem_tac
    | apply elem_of_app; left; elem_tac
    | apply elem_of_app; right; elem_tac
    | match goal with
      | H : ∀ x, x ∈ _ → x ∈ ?l |- _ ∈ ?l => apply H; elem_tac
      end ].

(** ** Sample services

    Small concrete services on which the statements below are run. *)
Module Sample.

Definition helper : Assistant :=
  {| asst_id := "asst_1"; asst_name := Some "Helper";
     asst_instructions := Some "Be kind"; asst_model := "gpt-4";
     asst_tools := [ToolRetrieval]; asst_file_ids := ["file_a"; "file_b"] |}.

Definition plain : Assistant :=
  {| asst_id := "asst_2"; asst_name := None; asst_instructions := None;
     asst_model := "gpt-5-preview"; asst_tools := []; asst_file_ids := [] |}.

Definition broken : Assistant :=
  {| asst_id := "asst_3"; asst_name := Some "Broken";
     asst_instructions := None; asst_model := "gpt-4"; asst_tools := [];
     asst_file_ids := ["file_gone"] |}.

Definition assistants : list Assistant := [helper; plain; broken].

(** The source: every file is called [notes.txt]; [file_gone] cannot be
    downloaded; the listing answers [listing]. *)
Definition openai (listing : exn + Cursor) : OpenAIClient :=
  {| oa_models_list := λ _, inr tt;
     oa_assistants_list := λ _ _, listing;
     oa_assistants_retrieve := λ _ aid,
       match List.find (λ a, bool_decide (asst_id a = aid)) assistants with
       | Some a => inr a
       | None => inl "NotFoundError"
       end;
     oa_files_content := λ _ fid,
       if bool_decide (fid = "file_gone") then inl "NotFoundError"
       else inr ("content of " +:+ fid);
     oa_files_retrieve := λ _ fid,
       inr {| fo_id := fid; fo_filename := Some "notes.txt" |} |}.

(** The destination: fresh ids are numbered by the requests received so
    far; uploads fail when [uploads_ok] is false. *)
Definition azure (deployments : list string) (uploads_ok : bool) : AzureClient :=
  {| az_models_list := λ _, inr deployments;
     az_files_create := λ h _ _,
       if uploads_ok then inr ("assistant-file-" +:+ pretty (length h))
       else inl "APIStatusError";
     az_assistants_create := λ h _, inr ("asst_azure_" +:+ pretty (length h)) |}.

Definition full_listing : exn + Cursor :=
  inr {| cur_items := assistants; cur_error := None |}.

Definition sdk (listing : exn + Cursor) (deployments : list string)
    (uploads_ok : bool) : SDK :=
  {| OpenAI := λ _, openai listing;
     AzureOpenAI := λ _ _ _, azure deployments uploads_ok |}.

Definition migrator (listing : exn + Cursor) (deployments : list string)
    (uploads_ok : bool) : AssistantMigrator :=
  {| openai_client := openai listing;
     azure_client := azure deployments uploads_ok |}.

Definition deployments : list string := ["gpt-3.5"; "gpt-4-turbo"].

(** A fresh process: nothing logged, nothing sent, an empty [/tmp]. *)
Definition boot : State :=
  {| tempdir := "/tmp"; writable := λ _, true; files := ∅; log := [];
     calls := []; slept := 0 |}.

Definition environ : gmap string string :=
  <["OPENAI_API_KEY" := "sk-source"]>
  (<["AZURE_OPENAI_API_KEY" := "azure-key"]>
  (<["AZURE_OPENAI_ENDPOINT" := "https://example.openai.azure.com"]> ∅)).

End Sample.

(** ** Frames and further observations *)

(** [preserves R m]: from whatever state [m] runs, the state it leaves is
    related to the first by [R]. *)
Definition preserves {A} (R : State → State → Prop) (m : M A) : Prop :=
  ∀ s, R s (m s).1.

(** No time spent sleeping. *)
Definition same_sleep (s s' : State) : Prop := slept s' = slept s.

(** The local files are untouched. *)
Definition same_files (s s' : State) : Prop := files s' = files s.

(** Every local file is still there (its content may have changed), on the
    same host. *)
Definition files_kept (s s' : State) : Prop :=
  dom (files s) ⊆ dom (files s') ∧ tempdir s' = tempdir s ∧
  writable s' = writable s.

(** The request an upload of [fd] sends when the local files are [fs]: the
    content found at the path, nothing when no file is there. *)
Definition upload_request (fs : gmap string bytes) (fd : FileDetail)
  : option Call :=
  (λ data, Azure_files_create data "assistants") <$> fs !! fd_path fd.

(** The requests [c], sent after [h], stop at the first one answered by an
    error. *)
Definition stops_at_failure (self : AssistantMigrator) (h c : list Call)
  : Prop :=
  failures self h c = [] ∨
  ∃ c0 x, c = c0 ++ [x] ∧ failures self h c0 = [] ∧
          answered_error self (h ++ c0) x = true.

(** The records [main] logs after the migration returned the mapping [m]. *)
Definition summary_records (m : list (string * string)) : list LogRecord :=
  [(INFO, Literal "Migration completed!"); (INFO, Literal "Migration summary:")]
  ++ ((λ p, (INFO, SummaryLine p.1 p.2)) <$> m)
  ++ [(INFO, SummaryCount (length m))].

(** [id] answers an upload request among [c], sent after [h]. *)
Definition uploaded_as (self : AssistantMigrator) (h c : list Call)
    (id : string) : Prop :=
  ∃ c1 data c2,
    c = c1 ++ Azure_files_create data "assistants" :: c2 ∧
    az_files_create (azure_client self) (h ++ c1) data "assistants" = inr id.

(** The destination id of the last [Migrated] record about [sid] in a log. *)
Definition last_migrated (sid : string) (l : list LogRecord) : option string :=
  last (omap (λ p, if decide (p.1 = sid) then Some p.2 else None)
          (migrated_pairs l)).


(** ** Services with an outage

    The sample services, with a source or a destination whose connection
    check fails, and a listing that breaks after its first page. *)
Module Outage.

Definition openai_down : OpenAIClient :=
  {| oa_models_list := λ _, inl "AuthenticationError";
     oa_assistants_list := oa_assistants_list (Sample.openai Sample.full_listing);
     oa_assistants_retrieve :=
       oa_assistants_retrieve (Sample.openai Sample.full_listing);
     oa_files_content := oa_files_content (Sample.openai Sample.full_listing);
     oa_files_retrieve := oa_files_retrieve (Sample.openai Sample.full_listing) |}.

Definition azure_down : AzureClient :=
  {| az_models_list := λ _, inl "APIConnectionError";
     az_files_create := az_files_create (Sample.azure Sample.deployments true);
     az_assistants_create :=
       az_assistants_create (Sample.azure Sample.deployments true) |}.

Definition sdk_source_down : SDK :=
  {| OpenAI := λ _, openai_down;
     AzureOpenAI := λ _ _ _, Sample.azure Sample.deployments true |}.

Definition sdk_destination_down : SDK :=
  {| OpenAI := λ _, Sample.openai Sample.full_listing;
     AzureOpenAI := λ _ _ _, azure_down |}.

(** A cursor that yields its first page and then fails. *)
Definition broken_listing : exn + Cursor :=
  inr {| cur_items := [Sample.plain; Sample.helper];
         cur_error := Some "APITimeoutError" |}.

(** A source whose file metadata carries an absolute file name. *)
Definition openai_absolute : OpenAIClient :=
  {| oa_models_list := λ _, inr tt;
     oa_assistants_list := λ _ _, Sample.full_listing;
     oa_assistants_retrieve :=
       oa_assistants_retrieve (Sample.openai Sample.full_listing);
     oa_files_content := oa_files_content (Sample.openai Sample.full_listing);
     oa_files_retrieve := λ _ fid,
       inr {| fo_id := fid; fo_filename := Some "/etc/motd" |} |}.

Definition migrator_absolute : AssistantMigrator :=
  {| openai_client := openai_absolute;
     azure_client := Sample.azure Sample.deployments true |}.

End Outage.

(** * Proofs *)

(** ** Steps of the machine *)

Lemma Step_refl s : Step s s [] [].
Proof. split; by rewrite ?app_nil_r. Qed.

Lemma Step_trans s s1 s2 l1 l2 c1 c2 :
  Step s s1 l1 c1 → Step s1 s2 l2 c2 → Step s s2 (l1 ++ l2) (c1 ++ c2).
Proof.
  intros [A1 A2 A3 A4] [B1 B2 B3 B4].
  split; rewrite ?app_assoc; congruence.
Qed.

Lemma Step_trans_eq s s1 s2 l1 l2 c1 c2 l c :
  Step s s1 l1 c1 → Step s1 s2 l2 c2 → l = l1 ++ l2 → c = c1 ++ c2 →
  Step s s2 l c.
Proof. intros H1 H2 -> ->. by eapply Step_trans. Qed.

Lemma Step_new_log s s' l c : Step s s' l c → new_log s s' = l.
Proof. intros H. unfold new_log. rewrite (step_log _ _ _ _ H). by rewrite drop_app_length. Qed.

Lemma Step_new_calls s s' l c : Step s s' l c → new_calls s s' = c.
Proof. intros H. unfold new_calls. rewrite (step_calls _ _ _ _ H). by rewrite drop_app_length. Qed.

Lemma Step_logger_info m s : Step s (logger_info m s).1 [(INFO, m)] [].
Proof. split; simpl; by rewrite ?app_nil_r. Qed.

Lemma Step_logger_error m s : Step s (logger_error m s).1 [(ERROR, m)] [].
Proof. split; simpl; by rewrite ?app_nil_r. Qed.

Lemma Step_request {A} c (f : list Call → exn + A) s :
  Step s (request c f s).1 [] [c].
Proof. split; simpl; by rewrite ?app_nil_r. Qed.

Lemma failures_app self h c1 c2 :
  failures self h (c1 ++ c2) =
  failures self h c1 ++ failures self (h ++ c1) c2.
Proof.
  revert h. induction c1 as [|c c1 IH]; intros h; simpl.
  - by rewrite app_nil_r.
  - rewrite IH, <- !app_assoc. simpl. done.
Qed.

Lemma bind_eq {A B} (m : M A) (k : A → M B) s :
  (m ≫= k) s =
  match m s with
  | (s', Return a) => k a s'
  | (s', Raise e) => (s', Raise e)
  | (s', SysExit c) => (s', SysExit c)
  end.
Proof. reflexivity. Qed.

Lemma quiet_app l1 l2 : quiet l1 → quiet l2 → quiet (l1 ++ l2).
Proof. apply Forall_app_2. Qed.

Lemma quiet_filter l : quiet l → List.filter is_mark l = [].
Proof.
  induction 1 as [|x l Hx _ IH]; simpl; [done|]. by rewrite Hx.
Qed.

Lemma filter_mark_app l1 l2 :
  List.filter is_mark (l1 ++ l2) = List.filter is_mark l1 ++ List.filter is_mark l2.
Proof. apply List.filter_app. Qed.

(** ** [_download_file] *)

Lemma download_file_spec self fid s s' r :
  _download_file self fid s = (s', r) → ∃ l c, source_post self s s' r l c.
Proof.
  unfold _download_file, source_post, quiet. unfold_monad.
  unfold request, logger_info, logger_error, write_file. simpl.
  destruct (oa_files_content _ _ _) as [e|data] eqn:Ec; simpl.
  { intros [= <- <-]. eexists _, _. split; [step_tac|]. repeat split; repeat constructor. }
  destruct (oa_files_retrieve _ _ _) as [e|meta] eqn:Em; simpl.
  { intros [= <- <-]. eexists _, _. split; [step_tac|]. repeat split; repeat constructor. }
  destruct (writable s _) eqn:Ew; simpl.
  - intros [= <- <-]. eexists _, _. split; [step_tac|].
    repeat split; repeat constructor. simpl. by rewrite Ec, Em.
  - intros [= <- <-]. eexists _, _. split; [step_tac|]. repeat split; repeat constructor.
Qed.

Lemma download_files_spec self fids acc s s' r :
  download_files self fids acc s = (s', r) → ∃ l c, source_post self s s' r l c.
Proof.
  revert acc s. induction fids as [|fid fids IH]; intros acc s; simpl.
  - unfold_monad. intros [= <- <-]. exists [], []. split; [apply Step_refl|].
    repeat split; constructor.
  - rewrite bind_eq. destruct (_download_file self fid s) as [s1 r1] eqn:E1.
    apply download_file_spec in E1 as (l1 & c1 & S1 & Q1 & D1 & F1).
    destruct r1 as [p|e|k]; [|intros [= <- <-]..].
    + intros E2. apply IH in E2 as (l2 & c2 & S2 & Q2 & D2 & F2).
      exists (l1 ++ l2), (c1 ++ c2). split; [by eapply Step_trans|].
      split; [by apply quiet_app|]. split; [by apply Forall_app_2|].
      destruct r; try done. rewrite failures_app, F1. simpl.
      by rewrite <- (step_calls _ _ _ _ S1).
    + exists l1, c1. split; [done|]. by split.
    + done.
Qed.

Lemma fetch_details_spec self aid s s' r :
  fetch_details self aid s = (s', r) →
  ∃ l c, Step s s' l (OpenAI_assistants_retrieve aid :: c) ∧ quiet l ∧
         Forall (λ x, is_download x = true) c ∧
         match r with
         | Return d =>
             failures self (calls s) (OpenAI_assistants_retrieve aid :: c) = [] ∧
             ∃ assistant fds,
               oa_assistants_retrieve (openai_client self) (calls s) aid
                 = inr assistant ∧
               d = details_dict assistant fds
         | Raise _ => True
         | SysExit _ => False
         end.
Proof.
  unfold fetch_details. rewrite bind_eq. unfold request at 1.
  destruct (oa_assistants_retrieve _ _ _) as [e|assistant] eqn:Er.
  { intros [= <- <-]. exists [], []. split; [step_tac|]. repeat split; constructor. }
  rewrite bind_eq.
  destruct (download_files _ _ _ _) as [s1 r1] eqn:E1.
  apply download_files_spec in E1 as (l1 & c1 & S1 & Q1 & D1 & F1).
  assert (Step s s1 l1 (OpenAI_assistants_retrieve aid :: c1)) as S.
  { eapply (Step_trans s _ s1 [] l1 [OpenAI_assistants_retrieve aid] c1); [|exact S1].
    step_tac. }
  destruct r1 as [fds|e|k]; unfold_monad; intros [= <- <-]; try done.
  - exists l1, c1. do 3 (split; [done|]). split.
    + simpl. rewrite Er. simpl. apply F1.
    + by exists assistant, fds.
  - by exists l1, c1.
Qed.

Lemma details_dict_nonempty a fds : details_dict a fds ≠ ∅.
Proof. apply insert_non_empty. Qed.

Lemma details_dict_file_details a fds :
  details_dict a fds !! "file_details" = Some (VFiles fds).
Proof. reflexivity. Qed.


(** [get_assistant_details] is its [try] block, with an exception turned
    into a log record and the empty dictionary. *)
Lemma get_assistant_details_eq self aid s :
  get_assistant_details self aid s =
  match fetch_details self aid (logger_info (FetchingDetails aid) s).1 with
  | (s1, Return d) => (s1, Return d)
  | (s1, Raise e) => ((logger_error (DetailsFailed aid e) s1).1, Return ∅)
  | (s1, SysExit k) => (s1, SysExit k)
  end.
Proof.
  unfold get_assistant_details. unfold_monad. simpl.
  by destruct (fetch_details _ _ _) as [s1 [d|e|k]].
Qed.

Lemma get_assistant_details_spec self aid s s' r :
  get_assistant_details self aid s = (s', r) →
  ∃ l c d, r = Return d ∧
    Step s s' l (OpenAI_assistants_retrieve aid :: c) ∧
    Forall (λ x, is_download x = true) c ∧
    ((d = ∅ ∧ ∃ e, List.filter is_mark l = [(ERROR, DetailsFailed aid e)]) ∨
     (∃ a fds,
        oa_assistants_retrieve (openai_client self) (calls s) aid = inr a ∧
        d = details_dict a fds ∧ quiet l ∧
        failures self (calls s) (OpenAI_assistants_retrieve aid :: c) = [])).
Proof.
  rewrite get_assistant_details_eq.
  destruct (fetch_details _ _ _) as [s1 r1] eqn:E1.
  apply fetch_details_spec in E1 as (l1 & c1 & S1 & Q1 & D1 & F1).
  pose proof (Step_trans _ _ _ _ _ _ _ (Step_logger_info (FetchingDetails aid) s) S1)
    as S.
  destruct r1 as [d|e|k]; [| |done].
  - intros [= <- <-]. eexists _, c1, d. do 3 (split; [done|]). right.
    destruct F1 as (F1 & a & fds & Ha & ->). exists a, fds.
    do 2 (split; [done|]). split; [|done]. by apply quiet_app; [repeat constructor|].
  - intros [= <- <-]. eexists _, c1, ∅. split; [done|]. split.
    { eapply Step_trans_eq;
        [exact S|apply Step_logger_error|reflexivity|by rewrite app_nil_r]. }
    split; [done|]. left. split; [done|]. exists e.
    rewrite !filter_mark_app. simpl. by rewrite (quiet_filter _ Q1).
Qed.

(** ** Uploads *)

Lemma upload_file_spec self p s s' r :
  _upload_file_to_azure self p s = (s', r) →
  ∃ l c o, r = Return o ∧ upload_post self s s' l c.
Proof.
  unfold _upload_file_to_azure, upload_post, quiet. unfold_monad.
  unfold request, logger_info, logger_error, read_file. simpl.
  destruct (files s !! p) as [data|] eqn:Ef; simpl.
  - destruct (az_files_create _ _ _ _) as [e|fid] eqn:Ec; simpl.
    + intros [= <- <-]. eexists _, _, _. split; [done|]. split; [step_tac|].
      split; [repeat constructor|]. split; [repeat constructor|].
      intros _. exists e. set_solver.
    + intros [= <- <-]. eexists _, _, _. split; [done|]. split; [step_tac|].
      split; [repeat constructor|]. split; [repeat constructor|].
      simpl. by rewrite Ec.
  - intros [= <- <-]. eexists _, _, _. split; [done|]. split; [step_tac|].
    split; [repeat constructor|]. split; [constructor|]. done.
Qed.

Lemma upload_post_trans self s s1 s2 l1 l2 c1 c2 :
  upload_post self s s1 l1 c1 → upload_post self s1 s2 l2 c2 →
  upload_post self s s2 (l1 ++ l2) (c1 ++ c2).
Proof.
  intros (S1 & Q1 & U1 & F1) (S2 & Q2 & U2 & F2).
  split; [by eapply Step_trans|]. split; [by apply quiet_app|].
  split; [by apply Forall_app_2|].
  rewrite failures_app, <- (step_calls _ _ _ _ S1). intros H.
  destruct (failures self (calls s) c1) eqn:E1.
  - destruct F2 as [e He]; [done|]. exists e. set_solver.
  - destruct F1 as [e He]; [done|]. exists e. set_solver.
Qed.

Lemma upload_files_spec self fds acc s s' r :
  upload_files self fds acc s = (s', r) →
  ∃ l c ids, r = Return ids ∧ upload_post self s s' l c.
Proof.
  revert acc s. induction fds as [|fd fds IH]; intros acc s; simpl.
  - unfold_monad. intros [= <- <-]. exists [], [], acc. split; [done|].
    split; [apply Step_refl|]. repeat split; try constructor. done.
  - rewrite bind_eq. destruct (_upload_file_to_azure _ _ _) as [s1 r1] eqn:E1.
    apply upload_file_spec in E1 as (l1 & c1 & o & -> & P1).
    intros E2.
    assert (∃ acc', upload_files self fds acc' s1 = (s', r)) as [acc' E3].
    { destruct o as [fid|]; [destruct (str_truthy fid)|]; eauto. }
    apply IH in E3 as (l2 & c2 & ids & -> & P2).
    exists (l1 ++ l2), (c1 ++ c2), ids. split; [done|].
    by eapply upload_post_trans.
Qed.

(** ** [create_azure_assistant] *)

Lemma create_outcome_mono self d ids h l l' cc o :
  create_outcome self d ids h l cc o → (∀ x, x ∈ l → x ∈ l') →
  create_outcome self d ids h l' cc o.
Proof.
  unfold create_outcome. intros H Hl.
  destruct (az_models_list _ _); [intuition|].
  destruct (resolve_target_model _ _); [|intuition].
  destruct (str_truthy _); [|intuition].
  destruct (az_assistants_create _ _ _); intuition.
Qed.

Lemma file_details_of_files d fds :
  d !! "file_details" = Some (VFiles fds) → file_details_of d = mret fds.
Proof. intros H. unfold file_details_of, dict_get_default. by rewrite H. Qed.

Lemma create_with_files_spec self d ids s s' r :
  create_with_files self d ids s = (s', r) →
  ∃ l cc o, r = Return o ∧ Step s s' l (Azure_models_list :: cc) ∧ quiet l ∧
            create_outcome self d ids (calls s) l cc o.
Proof.
  unfold create_with_files. unfold_monad.
  unfold request, logger_error, logger_info. simpl.
  destruct (az_models_list _ _) as [e|ds] eqn:Em; simpl.
  { intros [= <- <-]. eexists _, [], None. split; [done|]. split; [step_tac|].
    split; [repeat constructor|]. unfold create_outcome. rewrite_answers.
    do 2 (split; [done|]). set_solver. }
  destruct (resolve_target_model _ _) as [tm|] eqn:Et; simpl.
  2:{ intros [= <- <-]. eexists _, [], None. split; [done|]. split; [step_tac|].
    split; [repeat constructor|]. unfold create_outcome. rewrite_answers.
    do 2 (split; [done|]). unfold no_deployments. set_solver. }
  destruct (str_truthy tm) eqn:Etm; simpl.
  2:{ intros [= <- <-]. eexists _, [], None. split; [done|]. split; [step_tac|].
    split; [repeat constructor|]. unfold create_outcome. rewrite_answers.
    do 2 (split; [done|]). unfold no_deployments. set_solver. }
  fold (create_request d tm ids).
  destruct (bool_decide (VStr tm ≠ dict_get d "model")); simpl;
    destruct (az_assistants_create _ _ _) as [e|did] eqn:Ec; simpl;
    intros [= <- <-]; eexists _, [_], _.
  all: split; [done|]; split; [step_tac|]; split; [repeat constructor|].
  all: unfold create_outcome; rewrite_answers.
  all: split; [done|]; split; [done|set_solver].
Qed.

Lemma create_spec self d fds s s' r :
  d !! "file_details" = Some (VFiles fds) →
  create_azure_assistant self d s = (s', r) →
  ∃ l lu cu su ids cc o,
    r = Return o ∧
    upload_files self fds [] (logger_info (Creating (dict_get d "name")) s).1
      = (su, Return ids) ∧
    upload_post self (logger_info (Creating (dict_get d "name")) s).1 su lu cu ∧
    Step s s' l (cu ++ Azure_models_list :: cc) ∧ quiet l ∧
    (∀ x, x ∈ lu → x ∈ l) ∧
    create_outcome self d ids (calls s ++ cu) l cc o.
Proof.
  intros Hfd. unfold create_azure_assistant.
  rewrite (file_details_of_files _ _ Hfd).
  rewrite bind_eq. unfold logger_info at 1. cbv beta iota.
  set (s0 := set_log _ s).
  rewrite bind_eq. unfold mret at 1, M_ret, ret. cbv beta iota.
  rewrite bind_eq.
  destruct (upload_files self fds [] s0) as [su ru] eqn:Eu.
  pose proof Eu as Eu'.
  apply upload_files_spec in Eu' as (lu & cu & ids & -> & P).
  pose proof P as (Su & Qu & Uu & Fu).
  assert (Step s su ((INFO, Creating (dict_get d "name")) :: lu) cu) as S0.
  { eapply Step_trans_eq;
      [apply (Step_logger_info (Creating (dict_get d "name")) s)|exact Su|done..]. }
  intros E. apply create_with_files_spec in E as (l & cc & o & -> & S1 & Q1 & O1).
  eexists _, lu, cu, su, ids, cc, o. split; [done|]. split; [done|].
  split; [exact P|]. split; [by eapply Step_trans|].
  split; [apply quiet_app; [by apply Forall_cons_2|done]|].
  split; [set_solver|].
  rewrite (step_calls _ _ _ _ S0) in O1.
  eapply create_outcome_mono; [exact O1|]. set_solver.
Qed.

(** ** One assistant *)

Lemma migrate_assistant_spec self a m s s' r :
  migrate_assistant self a m s = (s', r) →
  ∃ m' l c, r = Return m' ∧
    Step s s' l (OpenAI_assistants_retrieve (asst_id a) :: c) ∧
    assistant_post self a m s m' l c.
Proof.
  unfold migrate_assistant. rewrite bind_eq.
  unfold logger_info at 1. cbv beta iota. set (s0 := set_log _ s).
  assert (Step s s0 [(INFO, Migrating (asst_name a))] []) as S0 by step_tac.
  rewrite bind_eq.
  destruct (get_assistant_details self (asst_id a) s0) as [s1 r1] eqn:E1.
  apply get_assistant_details_spec in E1 as (l1 & c1 & d & -> & S1 & D1 & H1).
  pose proof (Step_trans _ _ _ _ _ _ _ S0 S1) as S01. simpl in S01.
  destruct H1 as [[-> [e He]]|(r0 & fds & Hr & -> & Q1 & F1)].
  - rewrite bool_decide_eq_true_2 by done. unfold_monad. intros [= <- <-].
    eexists m, _, c1. split; [done|]. split; [exact S01|]. left. exists e.
    split; [done|]. split; [|done]. simpl. by rewrite He.
  - rewrite bool_decide_eq_false_2 by apply details_dict_nonempty.
    rewrite bind_eq.
    destruct (create_azure_assistant self _ s1) as [s2 r2] eqn:E2.
    eapply create_spec in E2 as (l2 & lu & cu & su & ids & cc & o & -> & _ & P & S2 & Q2 & Hlu & O);
      [|apply details_dict_file_details].
    pose proof (Step_trans _ _ _ _ _ _ _ S01 S2) as S02. simpl in S02.
    destruct P as (Su & _ & Uu & Fu). simpl in Fu.
    assert (calls s1 = calls s ++ OpenAI_assistants_retrieve (asst_id a) :: c1) as Hc1.
    { apply S01. }
    rewrite Hc1 in Fu, O. rewrite <- app_assoc in O. simpl in O.
    assert (∀ m' x s3,
      Step s2 s3 [x] [] → is_mark x = true →
      match o with
      | Some did =>
         if str_truthy did then
           m' = dict_setitem (asst_id a) did m ∧ x = (INFO, Migrated (asst_id a) did)
         else m' = m ∧ x = (ERROR, MigrateFailed (asst_id a))
      | None => m' = m ∧ x = (ERROR, MigrateFailed (asst_id a))
      end →
      ∃ m'0 l c, Return m' = Return m'0 ∧ 
        Step s s3 l (OpenAI_assistants_retrieve (asst_id a) :: c) ∧
        assistant_post self a m s m'0 l c) as Fin.
    { intros m' x s3 S3 Hx Ho.
      pose proof (Step_trans _ _ _ _ _ _ _ S02 S3) as S03. rewrite app_nil_r in S03.
      eexists m', _, _. split; [done|]. split; [exact S03|]. right.
      exists r0, fds, c1, cu, cc, ids, o. split; [by rewrite <- Hr|].
      split; [done|]. do 2 (split; [done|]).
      split; [by rewrite <- F1|]. split.
      { intros Hf. destruct (Fu Hf) as [e He]. exists e. elem_tac. }
      split; [eapply create_outcome_mono; [exact O|intros y Hy; elem_tac]|].
      simpl. rewrite !filter_mark_app. rewrite (quiet_filter _ Q1), (quiet_filter _ Q2).
      simpl. rewrite Hx.
      destruct o as [did|]; [destruct (str_truthy did)|];
        by destruct Ho as [-> ->]. }
    destruct o as [did|]; [destruct (str_truthy did) eqn:Ed|];
      unfold_monad; unfold logger_info, logger_error, time_sleep; simpl;
      intros [= <- <-]; (eapply Fin; [step_tac|done|]); rewrite ?Ed; done.
Qed.

(** ** The loop *)

Lemma migrate_loop_run self items m s s' r :
  migrate_loop self items m s = (s', r) →
  ∃ m' segs, r = Return m' ∧ loop_run self items m s m' s' segs.
Proof.
  revert m s. induction items as [|a items IH]; intros m s; simpl.
  - unfold_monad. intros [= <- <-]. exists m, []. split; [done|constructor].
  - rewrite bind_eq. destruct (migrate_assistant self a m s) as [s1 r1] eqn:E1.
    apply migrate_assistant_spec in E1 as (m1 & l & c & -> & S1 & P1).
    intros E2. apply IH in E2 as (m' & segs & -> & R).
    exists m', ((l, OpenAI_assistants_retrieve (asst_id a) :: c) :: segs).
    split; [done|]. by econstructor.
Qed.

Lemma loop_run_Step self items m s m' s' segs :
  loop_run self items m s m' s' segs →
  Step s s' (concat segs.*1) (concat segs.*2).
Proof.
  induction 1 as [|a items m s m1 s1 l c m' s' segs S P R IH]; simpl.
  - apply Step_refl.
  - eapply Step_trans_eq; [exact S|exact IH|done..].
Qed.

Lemma migrated_pairs_app l1 l2 :
  migrated_pairs (l1 ++ l2) = migrated_pairs l1 ++ migrated_pairs l2.
Proof.
  induction l1 as [|[lv []] l1 IH]; simpl; try done. by rewrite IH.
Qed.

Lemma migrated_pairs_filter l :
  migrated_pairs (List.filter is_mark l) = migrated_pairs l.
Proof.
  induction l as [|[lv []] l IH]; simpl; try done. by rewrite IH.
Qed.

(** The closing record of one step and its effect on the mapping. *)
Lemma assistant_post_mark self a m s m' l c :
  assistant_post self a m s m' l c →
  ∃ x, List.filter is_mark l = [x] ∧ mark_id x = asst_id a ∧
       m' = dict_update m (migrated_pairs [x]).
Proof.
  intros [(e & -> & Hl & _)|(r & fds & cd & cu & cc & ids & o & _ & _ & _ & _ & _ & _ & _ & Ho)].
  - by eexists.
  - destruct o as [did|]; [destruct (str_truthy did)|];
      destruct Ho as [-> Hl]; by eexists.
Qed.

Lemma dict_update_app d ps1 ps2 :
  dict_update d (ps1 ++ ps2) = dict_update (dict_update d ps1) ps2.
Proof. apply foldl_app. Qed.

Lemma loop_run_marks self items m s m' s' segs :
  loop_run self items m s m' s' segs →
  mark_id <$> List.filter is_mark (concat segs.*1) = asst_id <$> items ∧
  m' = dict_update m (migrated_pairs (concat segs.*1)).
Proof.
  induction 1 as [|a items m s m1 s1 l c m' s' segs S P R [IH1 IH2]].
  - done.
  - apply assistant_post_mark in P as (x & Hx & Hid & Hm).
    rewrite !fmap_cons. cbn [fst concat].
    rewrite filter_mark_app, Hx. cbn [app]. rewrite fmap_cons, Hid, IH1.
    split; [done|].
    rewrite migrated_pairs_app, dict_update_app.
    rewrite <- (migrated_pairs_filter l), Hx, <- Hm. done.
Qed.

(** ** Configuration check *)

Lemma missing_env_text_lists k :
  k ∈ required_vars → lists_entry missing_env_text k.
Proof.
  unfold required_vars, lists_entry. intros Hk.
  repeat (apply elem_of_cons in Hk as [->|Hk]); [..|by apply elem_of_nil in Hk];
    vm_compute; repeat (first [apply list_elem_of_here | apply list_elem_of_further]).
Qed.

Lemma all_false_missing (environ : gmap string string) :
  (∃ k, k ∈ required_vars ∧ missing environ k) →
  all [environ !! "OPENAI_API_KEY"; environ !! "AZURE_OPENAI_API_KEY";
       environ !! "AZURE_OPENAI_ENDPOINT"] = false.
Proof.
  intros (k & Hk & Hm). unfold missing in Hm. unfold required_vars in Hk.
  unfold all. simpl.
  repeat (apply elem_of_cons in Hk as [->|Hk]); [..|by apply elem_of_nil in Hk];
    rewrite Hm; simpl; rewrite ?andb_false_r; done.
Qed.

(** C5 (as amended): when one of the three required values is unset or
    empty, [main] stops at once with exit status 1, having sent no
    request and logged exactly one error record; its text is fixed and
    lists all three required entries, whichever of them are missing. *)
Theorem C5_missing_configuration sdk (environ : gmap string string) s :
  (∃ k, k ∈ required_vars ∧ missing environ k) →
  main sdk environ s
    = (set_log (log s ++ [(ERROR, Literal missing_env_text)]) s, SysExit 1) ∧
  exit_status (main sdk environ s).2 ≠ 0%Z ∧
  ∀ k, k ∈ required_vars → lists_entry missing_env_text k.
Proof.
  intros Hm. apply all_false_missing in Hm.
  assert (main sdk environ s
    = (set_log (log s ++ [(ERROR, Literal missing_env_text)]) s, SysExit 1)) as E.
  { unfold main. cbv zeta. rewrite Hm. reflexivity. }
  split; [exact E|]. split; [by rewrite E|]. apply missing_env_text_lists.
Qed.

Lemma C5_missing_configuration_witness :
  main (Sample.sdk Sample.full_listing Sample.deployments true)
    (delete "OPENAI_API_KEY" Sample.environ) Sample.boot
    = (set_log [(ERROR, Literal missing_env_text)] Sample.boot, SysExit 1) ∧
  lists_entry missing_env_text "OPENAI_API_KEY".
Proof.
  destruct (C5_missing_configuration
              (Sample.sdk Sample.full_listing Sample.deployments true)
              (delete "OPENAI_API_KEY" Sample.environ) Sample.boot)
    as (E & _ & L).
  - exists "OPENAI_API_KEY". split; [|reflexivity].
    unfold required_vars. apply list_elem_of_here.
  - split; [exact E|]. apply L. unfold required_vars. apply list_elem_of_here.
Defined.

(** C5 as stated fails: with only [OPENAI_API_KEY] unset, the message also
    lists [AZURE_OPENAI_API_KEY] and [AZURE_OPENAI_ENDPOINT], which are set. *)
Lemma C5_counterexample :
  let environ := delete "OPENAI_API_KEY" Sample.environ in
  ∃ s' text,
    main (Sample.sdk Sample.full_listing Sample.deployments true) environ
      Sample.boot = (s', SysExit 1) ∧
    log s' = [(ERROR, Literal text)] ∧
    environ !! "OPENAI_API_KEY" = None ∧
    environ !! "AZURE_OPENAI_API_KEY" = Some "azure-key" ∧
    lists_entry text "AZURE_OPENAI_API_KEY" ∧
    ¬ (∀ k, k ∈ required_vars → (lists_entry text k ↔ environ !! k = None)).
Proof.
  eexists _, _. split; [reflexivity|]. split; [reflexivity|].
  split; [reflexivity|]. split; [reflexivity|].
  assert (lists_entry missing_env_text "AZURE_OPENAI_API_KEY") as HL.
  { apply missing_env_text_lists. unfold required_vars.
    apply list_elem_of_further, list_elem_of_here. }
  split; [exact HL|]. intros H.
  assert ("AZURE_OPENAI_API_KEY" ∈ required_vars) as Hk.
  { unfold required_vars. apply list_elem_of_further, list_elem_of_here. }
  apply H in Hk. apply Hk in HL. discriminate HL.
Qed.

(** ** The source listing *)

Lemma migrate_all_listing_error self s e :
  oa_assistants_list (openai_client self) (calls s) 100 = inl e →
  migrate_all_assistants self s
    = (set_calls (calls s ++ [OpenAI_assistants_list 100]) s, Raise e).
Proof.
  intros He. unfold migrate_all_assistants. unfold_monad. unfold request.
  by rewrite He.
Qed.

(** C4 (as amended): when the initial listing call errors, the wrapped
    listing operation [get_openai_assistants] logs the error and returns
    the empty list; [migrate_all_assistants] does not use that operation:
    it iterates the cursor itself, and the error leaves it as an exception,
    with no mapping returned and nothing logged. *)
Theorem C4_listing_error self s e :
  oa_assistants_list (openai_client self) (calls s) 100 = inl e →
  (∃ s', get_openai_assistants self s = (s', Return []) ∧
         new_log s s' = [(INFO, Literal "Fetching assistants from OpenAI …");
                         (ERROR, AssistantFetchFailed e)] ∧
         new_calls s s' = [OpenAI_assistants_list 100]) ∧
  migrate_all_assistants self s
    = (set_calls (calls s ++ [OpenAI_assistants_list 100]) s, Raise e).
Proof.
  intros He. split.
  - unfold get_openai_assistants. unfold_monad.
    unfold request, logger_info, logger_error. simpl. rewrite He. simpl.
    eexists. split; [reflexivity|].
    match goal with |- new_log s ?s' = _ ∧ _ =>
      assert (Step s s' [(INFO, Literal "Fetching assistants from OpenAI …");
                         (ERROR, AssistantFetchFailed e)]
                [OpenAI_assistants_list 100]) as S by step_tac
    end.
    split; [by eapply Step_new_log|by eapply Step_new_calls].
  - by apply migrate_all_listing_error.
Qed.

Lemma C4_listing_error_witness :
  migrate_all_assistants
    (Sample.migrator (inl "APIConnectionError") Sample.deployments true)
    Sample.boot
  = (set_calls [OpenAI_assistants_list 100] Sample.boot,
     Raise "APIConnectionError").
Proof.
  apply (C4_listing_error
           (Sample.migrator (inl "APIConnectionError") Sample.deployments true)
           Sample.boot "APIConnectionError").
  reflexivity.
Defined.

(** C4 as stated fails: with a listing call that errors,
    [migrate_all_assistants] raises instead of returning an empty mapping. *)
Lemma C4_counterexample :
  let self := Sample.migrator (inl "APIConnectionError") Sample.deployments true in
  oa_assistants_list (openai_client self) (calls Sample.boot) 100
    = inl "APIConnectionError" ∧
  (migrate_all_assistants self Sample.boot).2 = Raise "APIConnectionError" ∧
  (migrate_all_assistants self Sample.boot).2 ≠ Return [].
Proof. repeat split; done. Qed.

(** ** Details or the empty dictionary *)


Lemma fetch_details_no_exit self aid s k :
  (fetch_details self aid s).2 ≠ SysExit k.
Proof.
  destruct (fetch_details self aid s) as [s1 r1] eqn:E. simpl. intros ->.
  by apply fetch_details_spec in E as (l & c & _ & _ & _ & F).
Qed.



(** ** Downloads *)

Lemma download_file_returns self fid s s' p :
  _download_file self fid s = (s', Return p) →
  ∃ data meta,
    oa_files_content (openai_client self) (calls s) fid = inr data ∧
    oa_files_retrieve (openai_client self)
      (calls s ++ [OpenAI_files_content fid]) fid = inr meta ∧
    p = os_path_join (tempdir s) (local_filename meta fid) ∧
    files s' = <[p := data]> (files s).
Proof.
  unfold _download_file. unfold_monad.
  unfold request, logger_info, logger_error, write_file. simpl.
  destruct (oa_files_content _ _ _) as [e|data] eqn:Ec; simpl; [done|].
  destruct (oa_files_retrieve _ _ _) as [e|meta] eqn:Em; simpl; [done|].
  destruct (writable s _) eqn:Ew; simpl; [|done].
  intros [= <- <-]. by exists data, meta.
Qed.

Lemma local_filename_present meta fid n :
  fo_filename meta = Some n → n ≠ EmptyString → local_filename meta fid = n.
Proof. unfold local_filename. intros -> Hn. by destruct n. Qed.

Lemma local_filename_absent meta fid :
  fo_filename meta = None ∨ fo_filename meta = Some EmptyString →
  local_filename meta fid = fid +:+ ".bin".
Proof. unfold local_filename. by intros [-> | ->]. Qed.

(** C9: a download that returns has written the payload at the path that
    joins the temporary directory with the metadata filename, or with
    [<file_id>.bin] when there is no filename; hence a later download of
    another file whose metadata carries the same filename returns the same
    path, and after it that path holds the later payload. *)
Theorem C9_download_path self fid s s' p :
  _download_file self fid s = (s', Return p) →
  ∃ data meta,
    oa_files_content (openai_client self) (calls s) fid = inr data ∧
    oa_files_retrieve (openai_client self)
      (calls s ++ [OpenAI_files_content fid]) fid = inr meta ∧
    (∀ n, fo_filename meta = Some n → n ≠ EmptyString →
          p = os_path_join (tempdir s) n) ∧
    (fo_filename meta = None ∨ fo_filename meta = Some EmptyString →
     p = os_path_join (tempdir s) (fid +:+ ".bin")) ∧
    files s' = <[p := data]> (files s) ∧
    files s' !! p = Some data ∧
    ∀ fid2 s2 s2' p2 meta2 n,
      fid2 ≠ fid →
      tempdir s2 = tempdir s →
      _download_file self fid2 s2 = (s2', Return p2) →
      oa_files_retrieve (openai_client self)
        (calls s2 ++ [OpenAI_files_content fid2]) fid2 = inr meta2 →
      fo_filename meta = Some n → fo_filename meta2 = Some n → n ≠ EmptyString →
      p2 = p ∧
      ∃ data2,
        oa_files_content (openai_client self) (calls s2) fid2 = inr data2 ∧
        files s2' !! p = Some data2.
Proof.
  intros H. apply download_file_returns in H as (data & meta & Hc & Hm & Hp & Hf).
  exists data, meta. do 2 (split; [done|]).
  split; [intros n Hn Hne; by rewrite Hp, (local_filename_present _ _ _ Hn Hne)|].
  split; [intros Ha; by rewrite Hp, (local_filename_absent _ _ Ha)|].
  split; [done|]. split; [rewrite Hf; apply lookup_insert_eq|].
  intros fid2 s2 s2' p2 meta2 n Hne Ht H2 Hm2 Hn Hn2 Hnn.
  apply download_file_returns in H2 as (data2 & meta2' & Hc2 & Hm2' & Hp2 & Hf2).
  rewrite Hm2 in Hm2'. injection Hm2' as <-.
  assert (p2 = p) as ->.
  { rewrite Hp, Hp2, Ht.
    by rewrite (local_filename_present _ _ _ Hn Hnn),
               (local_filename_present _ _ _ Hn2 Hnn). }
  split; [done|]. exists data2. split; [done|].
  rewrite Hf2. apply lookup_insert_eq.
Qed.

Lemma C9_download_path_witness :
  let self := Sample.migrator Sample.full_listing Sample.deployments true in
  let first := _download_file self "file_a" Sample.boot in
  let second := _download_file self "file_b" first.1 in
  first.2 = Return "/tmp/notes.txt" ∧
  files first.1 !! "/tmp/notes.txt" = Some "content of file_a" ∧
  second.2 = Return "/tmp/notes.txt" ∧
  files second.1 !! "/tmp/notes.txt" = Some "content of file_b".
Proof.
  intros self first second.
  destruct (C9_download_path self "file_a" Sample.boot first.1 "/tmp/notes.txt")
    as (data & meta & Hc & Hm & _ & _ & _ & Hl & Hnext); [reflexivity|].
  injection Hc as <-. injection Hm as <-.
  destruct (Hnext "file_b" first.1 second.1 "/tmp/notes.txt"
              {| fo_id := "file_b"; fo_filename := Some "notes.txt" |}
              "notes.txt")
    as (_ & data2 & Hc2 & Hl2); try reflexivity; try discriminate.
  injection Hc2 as <-.
  split; [reflexivity|]. split; [exact Hl|]. split; [reflexivity|exact Hl2].
Defined.

(** ** Model resolution *)

Lemma contains_gpt4_truthy g : contains "gpt-4" g = true → str_truthy g = true.
Proof. by destruct g. Qed.

Lemma find_first {A} (f : A → bool) pre g post :
  Forall (λ x, f x = false) pre → f g = true →
  List.find f (pre ++ g :: post) = Some g.
Proof.
  induction 1 as [|x pre Hx _ IH]; intros Hg; simpl.
  - by rewrite Hg.
  - rewrite Hx. by apply IH.
Qed.

Lemma find_none {A} (f : A → bool) l :
  Forall (λ x, f x = false) l → List.find f l = None.
Proof. induction 1 as [|x l Hx _ IH]; simpl; [done|by rewrite Hx]. Qed.

Lemma resolve_verbatim requested ds :
  requested ∈ ds → resolve_target_model (VStr requested) ds = Some requested.
Proof.
  intros H. unfold resolve_target_model, not_in_deployments.
  by rewrite bool_decide_eq_true_2.
Qed.

Lemma resolve_gpt4 requested ds pre g post :
  requested ∉ ds → ds = pre ++ g :: post →
  Forall (λ x, contains "gpt-4" x = false) pre → contains "gpt-4" g = true →
  resolve_target_model (VStr requested) ds = Some g.
Proof.
  intros H -> Hpre Hg. unfold resolve_target_model, not_in_deployments.
  rewrite bool_decide_eq_false_2 by done. cbn [negb]. unfold next_gpt4.
  rewrite (find_first _ _ _ _ Hpre Hg). unfold py_or.
  by rewrite (contains_gpt4_truthy _ Hg).
Qed.

Lemma resolve_first requested ds :
  requested ∉ ds → Forall (λ x, contains "gpt-4" x = false) ds →
  resolve_target_model (VStr requested) ds = head ds.
Proof.
  intros H Hds. unfold resolve_target_model, not_in_deployments.
  rewrite bool_decide_eq_false_2 by done. cbn [negb]. unfold next_gpt4.
  rewrite (find_none _ _ Hds). by destruct ds.
Qed.

Lemma dict_get_lookup (d : gmap string Value) k v :
  d !! k = Some v → dict_get d k = v.
Proof. unfold dict_get. by intros ->. Qed.

(** C1: the model [create_azure_assistant] settles on is the requested
    one when it is among the deployments, else the first deployment whose
    id contains "gpt-4", else the first deployment, and none for an empty
    list.  With no model no creation request is sent and the result is
    [None]; the creation request, when one is sent, carries the model so
    chosen (the code sends it unless that id is the empty string). *)
Theorem C1_model_resolution self (d : gmap string Value) fds requested s ds :
  d !! "file_details" = Some (VFiles fds) →
  d !! "model" = Some (VStr requested) →
  let uploaded :=
    upload_files self fds [] (logger_info (Creating (dict_get d "name")) s).1 in
  az_models_list (azure_client self) (calls uploaded.1) = inr ds →
  let chosen := resolve_target_model (VStr requested) ds in
  (requested ∈ ds → chosen = Some requested) ∧
  (requested ∉ ds → ∀ pre g post,
     ds = pre ++ g :: post →
     Forall (λ x, contains "gpt-4" x = false) pre →
     contains "gpt-4" g = true → chosen = Some g) ∧
  (requested ∉ ds → Forall (λ x, contains "gpt-4" x = false) ds →
   chosen = head ds) ∧
  (ds = [] → chosen = None) ∧
  ∃ s' o ids,
    create_azure_assistant self d s = (s', Return o) ∧
    uploaded.2 = Return ids ∧
    Forall (λ c, is_upload c = true) (new_calls s uploaded.1) ∧
    match chosen with
    | Some tm =>
        if str_truthy tm then
          let req := create_request d tm ids in
          new_calls s s' =
            new_calls s uploaded.1 ++
            [Azure_models_list; Azure_assistants_create req] ∧
          o = match az_assistants_create (azure_client self)
                      (calls uploaded.1 ++ [Azure_models_list]) req with
              | inr did => Some did
              | inl _ => None
              end
        else
          new_calls s s' = new_calls s uploaded.1 ++ [Azure_models_list] ∧
          o = None
    | None =>
        new_calls s s' = new_calls s uploaded.1 ++ [Azure_models_list] ∧
        o = None
    end.
Proof.
  intros Hfd Hmodel uploaded Hds chosen.
  split; [apply resolve_verbatim|].
  split; [intros; by eapply resolve_gpt4|].
  split; [apply resolve_first|].
  split; [by intros ->|].
  destruct (create_azure_assistant self d s) as [s' r] eqn:E.
  eapply create_spec in E
    as (l & lu & cu & su & ids & cc & o & -> & Eu & P & S & _ & _ & O);
    [|exact Hfd].
  subst uploaded. rewrite Eu in *. simpl in *.
  destruct P as (Su & _ & Uu & _).
  assert (calls su = calls s ++ cu) as Hc by apply Su.
  assert (new_calls s su = cu) as Hn.
  { unfold new_calls. by rewrite Hc, drop_app_length. }
  exists s', o, ids. do 2 (split; [done|]). rewrite Hn. split; [done|].
  rewrite (Step_new_calls _ _ _ _ S).
  unfold create_outcome in O. rewrite <- Hc, Hds in O.
  rewrite (dict_get_lookup _ _ _ Hmodel) in O. fold chosen in O.
  destruct chosen as [tm|]; [destruct (str_truthy tm)|].
  - destruct O as [-> O]. split; [done|].
    by destruct (az_assistants_create _ _ _); destruct O.
  - by destruct O as (-> & -> & _).
  - by destruct O as (-> & -> & _).
Qed.


Lemma C1_model_resolution_witness :
  let self := Sample.migrator Sample.full_listing Sample.deployments true in
  let d := details_dict Sample.plain [] in
  resolve_target_model (VStr "gpt-5-preview") ["gpt-3.5"; "gpt-4-turbo"]
    = Some "gpt-4-turbo" ∧
  ∃ s', create_azure_assistant self d Sample.boot
          = (s', Return (Some "asst_azure_1")) ∧
        new_calls Sample.boot s'
          = [Azure_models_list;
             Azure_assistants_create (create_request d "gpt-4-turbo" [])].
Proof.
  intros self d.
  destruct (C1_model_resolution self d [] "gpt-5-preview" Sample.boot
              ["gpt-3.5"; "gpt-4-turbo"])
    as (_ & Hg & _ & _ & s' & o & ids & E & Eu & _ & Hm);
    [reflexivity..|].
  split.
  - apply (Hg ltac:(intros Hx; not_in_list Hx) ["gpt-3.5"] "gpt-4-turbo" []);
      [reflexivity|by repeat constructor|reflexivity].
  - injection Eu as <-. exists s'.
    change (resolve_target_model (VStr "gpt-5-preview") ["gpt-3.5"; "gpt-4-turbo"])
      with (Some "gpt-4-turbo") in Hm.
    cbv beta iota zeta in Hm. simpl str_truthy in Hm. cbv iota in Hm.
    destruct Hm as [Hn ->]. split; [exact E|exact Hn].
Defined.

(** The examples of the specification. *)
Example resolve_exact_match :
  resolve_target_model (VStr "gpt-4") ["gpt-4"; "gpt-3.5"] = Some "gpt-4".
Proof. reflexivity. Qed.

Example resolve_substring_fallback :
  resolve_target_model (VStr "gpt-5-preview") ["gpt-3.5"; "gpt-4-turbo"]
    = Some "gpt-4-turbo".
Proof. reflexivity. Qed.

Example resolve_no_deployment :
  resolve_target_model (VStr "x") [] = None.
Proof. reflexivity. Qed.

(** ** Assistants without files *)

Lemma get_assistant_details_no_files self aid s r :
  oa_assistants_retrieve (openai_client self) (calls s) aid = inr r →
  asst_file_ids r = [] →
  ∃ s', get_assistant_details self aid s = (s', Return (details_dict r [])) ∧
        Step s s' [(INFO, FetchingDetails aid)] [OpenAI_assistants_retrieve aid].
Proof.
  intros Hr Hf. rewrite get_assistant_details_eq.
  unfold fetch_details. rewrite bind_eq. unfold request at 1, logger_info.
  cbn [fst calls set_log]. rewrite Hr. rewrite Hf.
  eexists. split; [reflexivity|]. step_tac.
Qed.

Lemma create_azure_assistant_no_files self r s :
  create_azure_assistant self (details_dict r []) s
  = create_with_files self (details_dict r []) []
      (logger_info (Creating (dict_get (details_dict r []) "name")) s).1.
Proof.
  unfold create_azure_assistant.
  rewrite (file_details_of_files _ [] (details_dict_file_details r [])).
  reflexivity.
Qed.

Lemma migrate_assistant_no_files self a m s r :
  oa_assistants_retrieve (openai_client self) (calls s) (asst_id a) = inr r →
  asst_file_ids r = [] →
  ∃ s' l cc o,
    migrate_assistant self a m s
      = (s', Return match o with
                    | Some did =>
                        if str_truthy did then dict_setitem (asst_id a) did m
                        else m
                    | None => m
                    end) ∧
    Step s s' l
      (OpenAI_assistants_retrieve (asst_id a) :: Azure_models_list :: cc) ∧
    create_outcome self (details_dict r []) []
      (calls s ++ [OpenAI_assistants_retrieve (asst_id a)]) l cc o.
Proof.
  intros Hr Hf. unfold migrate_assistant. rewrite bind_eq.
  unfold logger_info at 1. cbv beta iota. set (s0 := set_log _ s).
  assert (Step s s0 [(INFO, Migrating (asst_name a))] []) as S0 by step_tac.
  rewrite bind_eq.
  destruct (get_assistant_details_no_files self (asst_id a) s0 r Hr Hf)
    as (s1 & -> & S1).
  pose proof (Step_trans _ _ _ _ _ _ _ S0 S1) as S01. simpl in S01.
  rewrite bool_decide_eq_false_2 by apply details_dict_nonempty.
  rewrite bind_eq, create_azure_assistant_no_files.
  set (s2 := (logger_info _ s1).1).
  assert (Step s1 s2 [(INFO, Creating (dict_get (details_dict r []) "name"))] [])
    as S2 by step_tac.
  pose proof (Step_trans _ _ _ _ _ _ _ S01 S2) as S02. simpl in S02.
  destruct (create_with_files self _ [] s2) as [s3 r3] eqn:E3.
  apply create_with_files_spec in E3 as (l3 & cc & o & -> & S3 & _ & O).
  pose proof (Step_trans _ _ _ _ _ _ _ S02 S3) as S03. simpl in S03.
  rewrite (step_calls _ _ _ _ S02) in O.
  assert (∀ s4, (∃ x, Step s3 s4 [x] []) →
    ∃ l, Step s s4 l
           (OpenAI_assistants_retrieve (asst_id a) :: Azure_models_list :: cc) ∧
         create_outcome self (details_dict r []) []
           (calls s ++ [OpenAI_assistants_retrieve (asst_id a)]) l cc o) as Fin.
  { intros s4 [x S4]. pose proof (Step_trans _ _ _ _ _ _ _ S03 S4) as S.
    rewrite app_nil_r in S. eexists. split; [exact S|].
    eapply create_outcome_mono; [exact O|]. intros y Hy.
    apply elem_of_app. left. by do 3 apply list_elem_of_further. }
  destruct o as [did|] eqn:Eo; [destruct (str_truthy did) eqn:Ed|];
    unfold_monad; unfold logger_info, logger_error, time_sleep; simpl;
    match goal with
    | |- ∃ s' _ _ _, (?sf, _) = _ ∧ _ =>
        destruct (Fin sf) as (l & Sl & Ol); [eexists; step_tac|];
        exists sf, l, cc, o; subst o; rewrite ?Ed;
        split; [reflexivity|]; split; [exact Sl|exact Ol]
    end.
Qed.

Lemma create_outcome_requests self d ids h l cc o :
  create_outcome self d ids h l cc o →
  cc = [] ∨ ∃ tm, cc = [Azure_assistants_create (create_request d tm ids)].
Proof.
  unfold create_outcome.
  destruct (az_models_list _ _); [intros (_ & -> & _); by left|].
  destruct (resolve_target_model _ _) as [tm|]; [|intros (_ & -> & _); by left].
  destruct (str_truthy tm); [|intros (_ & -> & _); by left].
  intros [-> _]. right. by exists tm.
Qed.

(** C8: an assistant retrieved with no attached files is processed
    without any upload request, and a creation request sent for it carries
    an empty list of file ids; when the remaining steps succeed the
    requests are exactly the retrieval, the deployment listing and that
    creation, and the assistant enters the mapping. *)
Theorem C8_no_files self a m s r :
  oa_assistants_retrieve (openai_client self) (calls s) (asst_id a) = inr r →
  asst_file_ids r = [] →
  ∃ s' m',
    migrate_assistant self a m s = (s', Return m') ∧
    Forall (λ c, is_upload c = false) (new_calls s s') ∧
    (∀ req, Azure_assistants_create req ∈ new_calls s s' →
            cr_file_ids req = []) ∧
    ∀ ds tm did,
      let h := calls s ++ [OpenAI_assistants_retrieve (asst_id a)] in
      let req := {| cr_name := of_optional (asst_name r);
                    cr_instructions := of_optional (asst_instructions r);
                    cr_model := tm;
                    cr_tools := VTools (asst_tools r);
                    cr_file_ids := [] |} in
      az_models_list (azure_client self) h = inr ds →
      resolve_target_model (VStr (asst_model r)) ds = Some tm →
      str_truthy tm = true →
      az_assistants_create (azure_client self) (h ++ [Azure_models_list]) req
        = inr did →
      str_truthy did = true →
      m' = dict_setitem (asst_id a) did m ∧
      new_calls s s' = [OpenAI_assistants_retrieve (asst_id a);
                        Azure_models_list; Azure_assistants_create req].
Proof.
  intros Hr Hf.
  destruct (migrate_assistant_no_files self a m s r Hr Hf)
    as (s' & l & cc & o & E & S & O).
  eexists s', _. split; [exact E|].
  rewrite (Step_new_calls _ _ _ _ S).
  pose proof (create_outcome_requests _ _ _ _ _ _ _ O) as Hcc.
  split; [|split].
  - destruct Hcc as [->|[tm ->]]; by repeat constructor.
  - intros req Hreq. apply elem_of_cons in Hreq as [?|Hreq]; [done|].
    apply elem_of_cons in Hreq as [?|Hreq]; [done|].
    destruct Hcc as [->|[tm ->]]; [by apply elem_of_nil in Hreq|].
    apply list_elem_of_singleton in Hreq. by injection Hreq as ->.
  - intros ds tm did h req Hds Htm Ht Hc Hd.
    unfold create_outcome in O. fold h in O. rewrite Hds in O.
    change (dict_get (details_dict r []) "model") with (VStr (asst_model r)) in O.
    rewrite Htm, Ht in O.
    change (create_request (details_dict r []) tm []) with req in O.
    rewrite Hc in O. destruct O as (-> & -> & _). by rewrite Hd.
Qed.

Lemma C8_no_files_witness :
  let self := Sample.migrator Sample.full_listing Sample.deployments true in
  ∃ s', migrate_assistant self Sample.plain [] Sample.boot
          = (s', Return [("asst_2", "asst_azure_2")]) ∧
        new_calls Sample.boot s'
          = [OpenAI_assistants_retrieve "asst_2"; Azure_models_list;
             Azure_assistants_create
               {| cr_name := VNone; cr_instructions := VNone;
                  cr_model := "gpt-4-turbo"; cr_tools := VTools [];
                  cr_file_ids := [] |}].
Proof.
  intros self.
  destruct (C8_no_files self Sample.plain [] Sample.boot Sample.plain)
    as (s' & m' & E & _ & _ & H); [reflexivity..|].
  destruct (H Sample.deployments "gpt-4-turbo" "asst_azure_2") as [-> Hn];
    [reflexivity..|].
  exists s'. split; [exact E|exact Hn].
Defined.

(** ** The migration map *)

Lemma dict_setitem_keys k v (d : list (string * string)) :
  (dict_setitem k v d).*1 = if decide (k ∈ d.*1) then d.*1 else d.*1 ++ [k].
Proof.
  induction d as [|[k' v'] d IH].
  - done.
  - cbn [dict_setitem]. destruct (decide (k = k')) as [->|Hne].
    + rewrite !fmap_cons. cbn [fst]. clear IH.
      case_decide as H; [done|]. destruct H. apply list_elem_of_here.
    + rewrite !fmap_cons, IH. cbn [fst].
      destruct (decide (k ∈ d.*1)) as [Hin|Hnin];
        destruct (decide (k ∈ k' :: d.*1)) as [Hin'|Hnin']; try done.
      * destruct Hnin'. by apply list_elem_of_further.
      * apply elem_of_cons in Hin' as [?|?]; done.
Qed.

Lemma dict_setitem_fresh k v (d : list (string * string)) :
  k ∉ d.*1 → dict_setitem k v d = d ++ [(k, v)].
Proof.
  induction d as [|[k' v'] d IH]; simpl; [done|].
  intros Hn. apply not_elem_of_cons in Hn as [Hne Hn].
  rewrite decide_False by done. by rewrite IH.
Qed.

Lemma dict_setitem_NoDup k v (d : list (string * string)) :
  NoDup d.*1 → NoDup (dict_setitem k v d).*1.
Proof.
  intros H. rewrite dict_setitem_keys. destruct (decide (k ∈ d.*1)); [done|].
  apply NoDup_app. split; [done|]. split; [|apply NoDup_singleton].
  intros x Hx ->%list_elem_of_singleton. done.
Qed.

Lemma dict_update_NoDup (d ps : list (string * string)) :
  NoDup d.*1 → NoDup (dict_update d ps).*1.
Proof.
  revert d. induction ps as [|[k v] ps IH]; intros d H; simpl; [done|].
  apply IH. by apply dict_setitem_NoDup.
Qed.

Lemma dict_update_fresh (d ps : list (string * string)) :
  NoDup ps.*1 → (∀ k, k ∈ ps.*1 → k ∉ d.*1) → dict_update d ps = d ++ ps.
Proof.
  revert d. induction ps as [|[k v] ps IH]; intros d Hnd Hf; simpl.
  - by rewrite app_nil_r.
  - simpl in Hnd. apply NoDup_cons in Hnd as [Hk Hnd].
    rewrite dict_setitem_fresh by (apply Hf; simpl; apply list_elem_of_here).
    unfold dict_update in IH. rewrite IH; [by rewrite <- app_assoc|done|].
    intros k' Hk' Hin. rewrite fmap_app in Hin.
    apply elem_of_app in Hin as [Hin|Hin].
    + eapply Hf; [|exact Hin]. simpl. by apply list_elem_of_further.
    + simpl in Hin. apply list_elem_of_singleton in Hin as ->. done.
Qed.

Lemma dict_setitem_elem k v (d : list (string * string)) p :
  p ∈ dict_setitem k v d → p = (k, v) ∨ p ∈ d.
Proof.
  induction d as [|[k' v'] d IH]; simpl.
  - intros ->%list_elem_of_singleton. by left.
  - destruct (decide (k = k')) as [->|Hne].
    + intros [->|H]%elem_of_cons; [by left|right; by apply list_elem_of_further].
    + intros [->|H]%elem_of_cons; [right; apply list_elem_of_here|].
      destruct (IH H) as [->|?]; [by left|right; by apply list_elem_of_further].
Qed.

Lemma dict_update_elem (d ps : list (string * string)) p :
  p ∈ dict_update d ps → p ∈ d ∨ p ∈ ps.
Proof.
  revert d. induction ps as [|[k v] ps IH]; intros d; simpl; [by left|].
  intros H. apply IH in H as [H|H]; [|right; by apply list_elem_of_further].
  apply dict_setitem_elem in H as [->|H]; [right; apply list_elem_of_here|by left].
Qed.


(** ** Closing records of a run *)

Lemma assistant_post_closing self a m s m' l c :
  assistant_post self a m s m' l c →
  ∃ x, List.filter is_mark l = [x] ∧ closing a x.
Proof.
  intros [(e & -> & Hl & _)|(r & fds & cd & cu & cc & ids & o & _ & _ & _ & _ & _ & _ & _ & Ho)].
  - eexists. split; [done|]. left. by exists e.
  - destruct o as [did|]; [destruct (str_truthy did)|];
      destruct Ho as [-> Hl]; eexists; (split; [done|]).
    + right. left. by exists did.
    + by right; right.
    + by right; right.
Qed.

Lemma loop_run_closing self items m s m' s' segs :
  loop_run self items m s m' s' segs →
  Forall2 closing items (List.filter is_mark (concat segs.*1)).
Proof.
  induction 1 as [|a items m s m1 s1 l c m' s' segs S P R IH].
  - constructor.
  - apply assistant_post_closing in P as (x & Hx & Hc).
    rewrite fmap_cons. cbn [fst concat].
    rewrite filter_mark_app, Hx. by constructor.
Qed.

Lemma closing_mark_id a x : closing a x → mark_id x = asst_id a.
Proof. by intros [[e ->]|[[did ->]| ->]]. Qed.

Lemma closing_ids items ms :
  Forall2 closing items ms → mark_id <$> ms = asst_id <$> items.
Proof.
  induction 1 as [|a x items ms H _ IH]; [done|].
  rewrite !fmap_cons, IH. by rewrite (closing_mark_id _ _ H).
Qed.

Lemma filter_mark_elem_of x l : is_mark x = true → x ∈ l → x ∈ List.filter is_mark l.
Proof.
  intros Hm Hx. apply list_elem_of_In, List.filter_In. split; [|done].
  by apply list_elem_of_In.
Qed.

Lemma migrated_pairs_elem sid did l :
  (sid, did) ∈ migrated_pairs l ↔ ∃ lv, (lv, Migrated sid did) ∈ l.
Proof.
  induction l as [|[lv msg] l IH].
  - simpl. split; [by intros ?%elem_of_nil|by intros [? ?%elem_of_nil]].
  - assert ((∃ lv0, (lv0, Migrated sid did) ∈ (lv, msg) :: l) ↔
            msg = Migrated sid did ∨ ∃ lv0, (lv0, Migrated sid did) ∈ l) as ->.
    { split.
      - intros [lv0 [[= -> ->]|H]%elem_of_cons]; [by left|right; by exists lv0].
      - intros [->|[lv0 H]]; [exists lv; apply list_elem_of_here|].
        exists lv0. by apply list_elem_of_further. }
    rewrite <- IH. destruct msg; simpl; try (split; [by right|by intros [?|?]]).
    rewrite elem_of_cons. split.
    + intros [[= -> ->]|?]; [by left|by right].
    + intros [[= -> ->]|?]; [by left|by right].
Qed.

Lemma NoDup_fmap_eq {A B} (f : A → B) (l : list A) x y :
  NoDup (f <$> l) → x ∈ l → y ∈ l → f x = f y → x = y.
Proof.
  induction l as [|z l IH]; simpl; [by intros _ ?%elem_of_nil|].
  intros [Hz Hl]%NoDup_cons [->|Hx]%elem_of_cons [->|Hy]%elem_of_cons Hf.
  - done.
  - destruct Hz. rewrite Hf. by apply list_elem_of_fmap_2.
  - destruct Hz. rewrite <- Hf. by apply list_elem_of_fmap_2.
  - by apply IH.
Qed.

Lemma migrated_pairs_keys_sublist l :
  (migrated_pairs l).*1 `sublist_of` (mark_id <$> List.filter is_mark l).
Proof.
  induction l as [|[lv msg] l IH]; simpl; [done|].
  destruct msg; simpl; try done; try (by apply sublist_cons).
  by apply sublist_skip.
Qed.

Lemma mark_count l :
  length (List.filter is_mark l)
  = length (List.filter is_details_failed l) + length (migrated_pairs l)
    + length (List.filter is_migrate_failed l).
Proof.
  induction l as [|[lv msg] l IH]; simpl; [done|].
  destruct msg; simpl; lia.
Qed.

Lemma filter_elem_of {A} (f : A → bool) x l :
  x ∈ List.filter f l ↔ x ∈ l ∧ f x = true.
Proof. rewrite !list_elem_of_In. apply List.filter_In. Qed.

Lemma filter_none {A} (f : A → bool) l :
  Forall (λ x, f x = false) l → List.filter f l = [].
Proof. induction 1 as [|x l Hx _ IH]; simpl; [done|by rewrite Hx]. Qed.

(** ** The whole run *)

Lemma migrate_all_run self s cur :
  oa_assistants_list (openai_client self) (calls s) 100 = inr cur →
  ∃ s' m' segs,
    loop_run self (cur_items cur) []
      (set_calls (calls s ++ [OpenAI_assistants_list 100]) s) m' s' segs ∧
    migrate_all_assistants self s
      = (s', match cur_error cur with
             | Some e => Raise e
             | None => Return m'
             end).
Proof.
  intros Hl. unfold migrate_all_assistants. rewrite bind_eq.
  unfold request at 1. rewrite Hl. rewrite bind_eq.
  destruct (migrate_loop self (cur_items cur) [] _) as [s' r] eqn:E.
  apply migrate_loop_run in E as (m' & segs & -> & R).
  exists s', m', segs. split; [done|]. by destruct (cur_error cur).
Qed.

Lemma migrate_all_Step self s s1 items m' s' segs :
  s1 = set_calls (calls s ++ [OpenAI_assistants_list 100]) s →
  loop_run self items [] s1 m' s' segs →
  Step s s' (concat segs.*1) (OpenAI_assistants_list 100 :: concat segs.*2).
Proof.
  intros -> R. apply loop_run_Step in R.
  eapply (Step_trans_eq _ _ _ [] _ [OpenAI_assistants_list 100]);
    [|exact R|reflexivity|reflexivity].
  step_tac.
Qed.

(** With pairwise distinct ids the final mapping is the sequence of the
    [Migrated] records. *)
Lemma loop_run_mapping self items s m' s' segs :
  NoDup (asst_id <$> items) →
  loop_run self items [] s m' s' segs →
  m' = migrated_pairs (concat segs.*1).
Proof.
  intros Hnd R. pose proof (loop_run_closing _ _ _ _ _ _ _ R) as Hc.
  apply loop_run_marks in R as [_ ->].
  rewrite dict_update_fresh; [done| |intros k _; apply not_elem_of_nil].
  eapply (sublist_NoDup _ (mark_id <$> List.filter is_mark (concat segs.*1)));
    [|apply migrated_pairs_keys_sublist].
  by rewrite (closing_ids _ _ Hc).
Qed.

(** Under distinct ids, a source id has one closing record. *)
Lemma closing_unique items l x y :
  NoDup (asst_id <$> items) →
  Forall2 closing items (List.filter is_mark l) →
  x ∈ l → y ∈ l → is_mark x = true → is_mark y = true →
  mark_id x = mark_id y → x = y.
Proof.
  intros Hnd Hc Hx Hy Mx My Hid.
  eapply (NoDup_fmap_eq mark_id (List.filter is_mark l)); [|..|exact Hid].
  - by rewrite (closing_ids _ _ Hc).
  - by apply filter_elem_of.
  - by apply filter_elem_of.
Qed.

(** C2: when the listing yields [items], pairwise distinct, and ends
    without an error, [migrate_all_assistants] returns a mapping; if no
    assistant is reported as failed after its details were fetched, the
    mapping has as many entries as there are items minus the assistants
    whose detail retrieval failed, one for each assistant whose details
    were fetched. *)
Theorem C2_mapping_size self s items :
  oa_assistants_list (openai_client self) (calls s) 100
    = inr {| cur_items := items; cur_error := None |} →
  NoDup (asst_id <$> items) →
  ∃ s' m,
    migrate_all_assistants self s = (s', Return m) ∧
    (Forall (λ x, is_migrate_failed x = false) (new_log s s') →
     length m
       = length items - length (List.filter is_details_failed (new_log s s')) ∧
     (length (List.filter is_details_failed (new_log s s')) ≤ length items)%nat ∧
     ∀ a, a ∈ items →
       (asst_id a ∈ m.*1 ↔
        ¬ ∃ e, (ERROR, DetailsFailed (asst_id a) e) ∈ new_log s s')).
Proof.
  intros Hl Hnd.
  destruct (migrate_all_run self s _ Hl) as (s' & m & segs & R & E).
  simpl in R, E. exists s', m. split; [exact E|].
  pose proof (migrate_all_Step _ _ _ _ _ _ _ eq_refl R) as S.
  rewrite (Step_new_log _ _ _ _ S). set (L := concat segs.*1).
  pose proof (loop_run_closing _ _ _ _ _ _ _ R) as Hc. fold L in Hc.
  pose proof (loop_run_mapping _ _ _ _ _ _ Hnd R) as Hm. fold L in Hm.
  intros Hok.
  pose proof (mark_count L) as Hcount.
  rewrite (filter_none _ _ Hok), <- Hm in Hcount.
  rewrite <- (Forall2_length _ _ _ Hc) in Hcount. simpl in Hcount.
  split; [lia|]. split; [lia|].
  intros a Ha. split.
  - intros Hin [e He]. rewrite Hm in Hin.
    apply list_elem_of_fmap in Hin as ([sid did] & Hsid & Hp). simpl in Hsid.
    subst sid. apply migrated_pairs_elem in Hp as [lv Hp].
    assert ((lv, Migrated (asst_id a) did) = (ERROR, DetailsFailed (asst_id a) e))
      as Heq by (eapply (closing_unique items L); done).
    discriminate Heq.
  - intros Hno.
    apply list_elem_of_lookup in Ha as [i Hi].
    destruct (Forall2_lookup_l _ _ _ _ _ Hc Hi) as (x & Hx & Hcl).
    apply list_elem_of_lookup_2 in Hx. apply filter_elem_of in Hx as [Hx _].
    destruct Hcl as [[e ->]|[[did ->]| ->]].
    + destruct Hno. by exists e.
    + rewrite Hm. apply list_elem_of_fmap. exists (asst_id a, did).
      split; [done|]. apply migrated_pairs_elem. by exists INFO.
    + rewrite Forall_forall in Hok. by apply Hok in Hx.
Qed.

Lemma C2_mapping_size_witness :
  let self := Sample.migrator Sample.full_listing Sample.deployments true in
  ∃ s' m,
    migrate_all_assistants self Sample.boot = (s', Return m) ∧
    length (List.filter is_details_failed (new_log Sample.boot s')) = 1 ∧
    length m = length Sample.assistants - 1 ∧
    ("asst_1" ∈ m.*1 ∧ "asst_2" ∈ m.*1 ∧ "asst_3" ∉ m.*1).
Proof.
  intros self.
  destruct (C2_mapping_size self Sample.boot Sample.assistants)
    as (s' & m & E & H); [reflexivity| |].
  { vm_compute. repeat (apply NoDup_cons; split; [intros Hx; not_in_list Hx|]).
    apply NoDup_nil_2. }
  exists s', m. split; [exact E|].
  pose proof (f_equal snd E) as Em. cbn [snd] in Em.
  vm_compute in Em. injection Em as <-.
  pose proof (f_equal fst E) as Es. cbn [fst] in Es. subst s'.
  destruct H as (Hlen & _ & Hin); [vm_compute; by repeat constructor|].
  split; [reflexivity|]. split; [exact Hlen|].
  split; [|split].
  - apply (Hin Sample.helper); [unfold Sample.assistants; in_list|].
    intros [e He]. vm_compute in He. not_in_list He.
  - apply (Hin Sample.plain); [unfold Sample.assistants; in_list|].
    intros [e He]. vm_compute in He. not_in_list He.
  - intros H3. apply (Hin Sample.broken) in H3; [|unfold Sample.assistants; in_list].
    apply H3. exists "NotFoundError". vm_compute. in_list.
Defined.

(** ** One destination assistant per listing entry *)

Lemma Forall_download_other c :
  Forall (λ x, is_download x = true) c →
  Forall (λ x, is_retrieve x = false) c ∧ List.filter is_create c = [].
Proof.
  induction 1 as [|x c Hx _ [IH1 IH2]]; [done|].
  split; [constructor; [by destruct x|done]|]. simpl. by destruct x.
Qed.

Lemma Forall_upload_other c :
  Forall (λ x, is_upload x = true) c →
  Forall (λ x, is_retrieve x = false) c ∧ List.filter is_create c = [].
Proof.
  induction 1 as [|x c Hx _ [IH1 IH2]]; [done|].
  split; [constructor; [by destruct x|done]|]. simpl. by destruct x.
Qed.

Lemma assistant_post_segment self a m s m' l c :
  assistant_post self a m s m' l c →
  segment a (OpenAI_assistants_retrieve (asst_id a) :: c).
Proof.
  intros H. exists c. split; [done|].
  destruct H as [(e & _ & _ & Hd)|(r & fds & cd & cu & cc & ids & o & _ & -> & Hd & Hu & _ & _ & O & _)].
  - apply Forall_download_other in Hd as [H1 H2]. split; [done|].
    rewrite H2. simpl. lia.
  - apply Forall_download_other in Hd as [Hd1 Hd2].
    apply Forall_upload_other in Hu as [Hu1 Hu2].
    apply create_outcome_requests in O.
    split.
    + apply Forall_app_2; [done|]. apply Forall_app_2; [done|].
      constructor; [done|]. destruct O as [->|[tm ->]]; by repeat constructor.
    + rewrite !List.filter_app, Hd2, Hu2. simpl.
      destruct O as [->|[tm ->]]; simpl; lia.
Qed.

Lemma loop_run_segments self items m s m' s' segs :
  loop_run self items m s m' s' segs → Forall2 segment items segs.*2.
Proof.
  induction 1 as [|a items m s m1 s1 l c m' s' segs S P R IH]; [constructor|].
  rewrite fmap_cons. constructor; [|done]. by eapply assistant_post_segment.
Qed.

Lemma segments_retrieves items segs :
  Forall2 segment items segs →
  List.filter is_retrieve (concat segs)
  = (λ a, OpenAI_assistants_retrieve (asst_id a)) <$> items.
Proof.
  induction 1 as [|a seg items segs (c & -> & Hc & _) _ IH]; [done|].
  cbn [concat]. rewrite List.filter_app, IH, fmap_cons. simpl.
  by rewrite (filter_none _ _ Hc).
Qed.

Lemma segments_creates items segs :
  Forall2 segment items segs →
  (length (List.filter is_create (concat segs)) ≤ length items)%nat.
Proof.
  induction 1 as [|a seg items segs (c & -> & _ & Hc) _ IH]; [done|].
  cbn [concat]. rewrite List.filter_app, length_app. simpl in *. lia.
Qed.

Lemma create_outcome_created self d ids h l cc did :
  create_outcome self d ids h l cc (Some did) →
  ∃ req, cc = [Azure_assistants_create req] ∧
         az_assistants_create (azure_client self) (h ++ [Azure_models_list]) req
           = inr did.
Proof.
  unfold create_outcome.
  destruct (az_models_list _ _); [by intros (? & _)|].
  destruct (resolve_target_model _ _) as [tm|]; [|by intros (? & _)].
  destruct (str_truthy tm); [|by intros (? & _)].
  intros [-> H]. eexists. split; [done|].
  destruct (az_assistants_create _ _ _) as [e|did']; [by destruct H|].
  destruct H as [[= ->] _]. done.
Qed.

(** A pair announced by a [Migrated] record comes from a creation request
    of the same run, answered with that destination id. *)
Lemma loop_run_created self items m s m' s' segs :
  loop_run self items m s m' s' segs →
  ∀ sid did, (sid, did) ∈ migrated_pairs (concat segs.*1) →
    sid ∈ asst_id <$> items ∧
    ∃ h req rest,
      concat segs.*2 = h ++ Azure_assistants_create req :: rest ∧
      az_assistants_create (azure_client self) (calls s ++ h) req = inr did.
Proof.
  induction 1 as [|a items m s m1 s1 l c m' s' segs S P R IH]; intros sid did.
  - by intros ?%elem_of_nil.
  - rewrite !fmap_cons. cbn [fst snd concat].
    rewrite migrated_pairs_app. intros [Hin|Hin]%elem_of_app.
    + rewrite <- migrated_pairs_filter in Hin.
      destruct P as [(e & _ & Hl & _)|(r & fds & cd & cu & cc & ids & o & _ & -> & _ & _ & _ & _ & O & Ho)].
      { rewrite Hl in Hin. by apply elem_of_nil in Hin. }
      destruct o as [did'|]; [destruct (str_truthy did')|];
        destruct Ho as [_ Hl]; rewrite Hl in Hin; simpl in Hin;
        try (by apply elem_of_nil in Hin).
      apply list_elem_of_singleton in Hin as [= -> ->].
      split; [apply list_elem_of_here|].
      apply create_outcome_created in O as (req & -> & Hreq).
      exists (OpenAI_assistants_retrieve (asst_id a) :: cd ++ cu ++ [Azure_models_list]),
        req, (concat segs.*2).
      split; [simpl; by rewrite <- !app_assoc|].
      rewrite <- Hreq. f_equal.
      rewrite <- ?app_assoc. simpl. by rewrite <- ?app_assoc.
    + destruct (IH _ _ Hin) as (Hsid & h & req & rest & Hc & Hreq).
      split; [by apply list_elem_of_further|].
      exists ((OpenAI_assistants_retrieve (asst_id a) :: c) ++ h), req, rest.
      split; [by rewrite Hc, <- app_assoc|].
      rewrite <- Hreq. f_equal. rewrite (step_calls _ _ _ _ S).
      by rewrite <- app_assoc.
Qed.

(** C7: a run sends the listing request and then, for each entry of the
    listing in order, one segment of requests: the entry's retrieval, no
    other retrieval, and at most one creation.  So every listed id is
    processed once per occurrence (exactly once when the ids are distinct)
    and yields at most one destination assistant; the mapping holds at
    most one destination id per source id; and every destination id in it
    answers a creation request of this very run, whatever the state the run
    starts from: nothing created by an earlier run is looked up or reused. *)
Theorem C7_one_destination_per_source self s cur :
  oa_assistants_list (openai_client self) (calls s) 100 = inr cur →
  ∃ s' m segs,
    migrate_all_assistants self s
      = (s', match cur_error cur with
             | Some e => Raise e
             | None => Return m
             end) ∧
    new_calls s s' = OpenAI_assistants_list 100 :: concat segs ∧
    Forall2 segment (cur_items cur) segs ∧
    List.filter is_retrieve (new_calls s s')
      = (λ a, OpenAI_assistants_retrieve (asst_id a)) <$> cur_items cur ∧
    (length (List.filter is_create (new_calls s s'))
       ≤ length (cur_items cur))%nat ∧
    (NoDup (asst_id <$> cur_items cur) →
     NoDup (List.filter is_retrieve (new_calls s s'))) ∧
    NoDup m.*1 ∧
    ∀ sid did, (sid, did) ∈ m →
      sid ∈ asst_id <$> cur_items cur ∧
      ∃ h req rest,
        new_calls s s' = h ++ Azure_assistants_create req :: rest ∧
        az_assistants_create (azure_client self) (calls s ++ h) req = inr did.
Proof.
  intros Hl.
  destruct (migrate_all_run self s _ Hl) as (s' & m & segs & R & E).
  exists s', m, segs.*2. split; [exact E|].
  pose proof (migrate_all_Step _ _ _ _ _ _ _ eq_refl R) as S.
  rewrite (Step_new_calls _ _ _ _ S).
  pose proof (loop_run_segments _ _ _ _ _ _ _ R) as Hseg.
  assert (List.filter is_retrieve (OpenAI_assistants_list 100 :: concat segs.*2)
          = (λ a, OpenAI_assistants_retrieve (asst_id a)) <$> cur_items cur) as Hret.
  { simpl. by apply segments_retrieves. }
  split; [done|]. split; [done|]. split; [exact Hret|].
  split; [simpl; by apply segments_creates|].
  split.
  { intros Hnd. rewrite Hret.
    rewrite (list_fmap_compose asst_id OpenAI_assistants_retrieve).
    apply NoDup_fmap_2; [|done]. by intros x y [= ->]. }
  pose proof (loop_run_marks _ _ _ _ _ _ _ R) as [_ Hm].
  split; [rewrite Hm; apply dict_update_NoDup, NoDup_nil_2|].
  intros sid did Hin. rewrite Hm in Hin.
  apply dict_update_elem in Hin as [Hin|Hin]; [by apply elem_of_nil in Hin|].
  destruct (loop_run_created _ _ _ _ _ _ _ R _ _ Hin)
    as (Hsid & h & req & rest & Hc & Hreq).
  split; [done|].
  exists (OpenAI_assistants_list 100 :: h), req, rest.
  split; [by rewrite Hc|]. rewrite <- Hreq. f_equal. simpl.
  by rewrite <- app_assoc.
Qed.

Lemma C7_one_destination_per_source_witness :
  let self := Sample.migrator Sample.full_listing Sample.deployments true in
  ∃ s' m,
    migrate_all_assistants self Sample.boot = (s', Return m) ∧
    List.filter is_retrieve (new_calls Sample.boot s')
      = [OpenAI_assistants_retrieve "asst_1"; OpenAI_assistants_retrieve "asst_2";
         OpenAI_assistants_retrieve "asst_3"] ∧
    NoDup m.*1.
Proof.
  intros self.
  destruct (C7_one_destination_per_source self Sample.boot
              {| cur_items := Sample.assistants; cur_error := None |})
    as (s' & m & segs & E & _ & _ & Hr & _ & _ & Hnd & _); [reflexivity|].
  exists s', m. split; [exact E|]. split; [exact Hr|exact Hnd].
Defined.

(** Running the migration a second time creates every assistant again:
    the second run sends its own creation requests and maps the same
    source ids to new destination ids. *)
Example rerun_creates_duplicates :
  let self := Sample.migrator Sample.full_listing Sample.deployments true in
  let first := migrate_all_assistants self Sample.boot in
  let second := migrate_all_assistants self first.1 in
  first.2 = Return [("asst_1", "asst_azure_9"); ("asst_2", "asst_azure_12")] ∧
  second.2 = Return [("asst_1", "asst_azure_24"); ("asst_2", "asst_azure_27")] ∧
  length (List.filter is_create (calls first.1)) = 2 ∧
  length (List.filter is_create (calls second.1)) = 4.
Proof. vm_compute. done. Qed.

(** ** The entry point *)

Lemma all_present (environ : gmap string string) :
  (∀ k, k ∈ required_vars → ¬ missing environ k) →
  all [environ !! "OPENAI_API_KEY"; environ !! "AZURE_OPENAI_API_KEY";
       environ !! "AZURE_OPENAI_ENDPOINT"] = true.
Proof.
  intros H. unfold all. simpl. unfold missing in H.
  assert (∀ k, k ∈ required_vars → opt_truthy (environ !! k) = true) as H'.
  { intros k Hk. specialize (H k Hk). by destruct (opt_truthy _). }
  rewrite !H'; [done|unfold required_vars; in_list..].
Qed.

Lemma init_connected sdk k1 k2 k3 v s u ds :
  let self := {| openai_client := OpenAI sdk k1;
                 azure_client := AzureOpenAI sdk k2 v k3 |} in
  oa_models_list (openai_client self) (calls s) = inr u →
  az_models_list (azure_client self) (calls s ++ [OpenAI_models_list]) = inr ds →
  ∃ s', __init__ sdk k1 k2 k3 v s = (s', Return self) ∧
        Step s s'
          [(INFO, Literal "Successfully connected to OpenAI API");
           (INFO, Literal "Successfully connected to Azure OpenAI API")]
          [OpenAI_models_list; Azure_models_list].
Proof.
  intros self H1 H2. unfold __init__. fold self. unfold_monad.
  unfold request, logger_info, logger_error. simpl in *.
  rewrite H1. simpl. rewrite H2. simpl.
  eexists. split; [reflexivity|]. step_tac.
Qed.

Lemma log_summary_returns items s :
  ∃ s', log_summary items s = (s', Return tt).
Proof.
  revert s. induction items as [|[sid tid] items IH]; intros s; simpl.
  - by eexists.
  - rewrite bind_eq. unfold logger_info at 1. cbv beta iota. apply IH.
Qed.

Lemma main_outcome sdk (environ : gmap string string) s ds :
  (∀ k, k ∈ required_vars → ¬ missing environ k) →
  let self := configured sdk environ in
  oa_models_list (openai_client self) (calls s) = inr tt →
  az_models_list (azure_client self) (calls s ++ [OpenAI_models_list]) = inr ds →
  (main sdk environ s).2 =
  match oa_assistants_list (openai_client self)
          (calls s ++ [OpenAI_models_list; Azure_models_list]) 100 with
  | inr cur =>
      match cur_error cur with
      | None => Return tt
      | Some e => Raise e
      end
  | inl e => Raise e
  end.
Proof.
  intros Hp self H1 H2. apply all_present in Hp. unfold configured in self.
  unfold main. cbv zeta. rewrite Hp. cbn [negb]. rewrite bind_eq.
  destruct (init_connected sdk _ _ _ "2023-12-01-preview" s tt ds H1 H2)
    as (s1 & -> & S1).
  fold self. rewrite bind_eq.
  assert (calls s1 = calls s ++ [OpenAI_models_list; Azure_models_list]) as Hc
    by apply S1.
  rewrite <- Hc.
  destruct (oa_assistants_list (openai_client self) (calls s1) 100)
    as [e|cur] eqn:El.
  - by rewrite (migrate_all_listing_error self s1 e El).
  - destruct (migrate_all_run self s1 cur El) as (s2 & m & segs & _ & ->).
    destruct (cur_error cur) as [e|]; [done|].
    do 2 (rewrite bind_eq; unfold logger_info at 1; cbv beta iota).
    rewrite bind_eq.
    match goal with
    | |- context [log_summary m ?st] =>
        destruct (log_summary_returns m st) as [s3 ->]
    end.
    reflexivity.
Qed.

(** C6 (as amended): with the three values configured and both connection
    checks answered, [main] returns normally, exit status 0, whenever the
    listing is iterated to its end, however many assistants failed; when
    the listing call or the cursor raises, the exception leaves [main] and
    the exit status is 1. *)
Theorem C6_exit_status sdk (environ : gmap string string) s ds :
  (∀ k, k ∈ required_vars → ¬ missing environ k) →
  let self := configured sdk environ in
  oa_models_list (openai_client self) (calls s) = inr tt →
  az_models_list (azure_client self) (calls s ++ [OpenAI_models_list]) = inr ds →
  match oa_assistants_list (openai_client self)
          (calls s ++ [OpenAI_models_list; Azure_models_list]) 100 with
  | inr cur =>
      match cur_error cur with
      | None =>
          (main sdk environ s).2 = Return tt ∧
          exit_status (main sdk environ s).2 = 0%Z
      | Some e =>
          (main sdk environ s).2 = Raise e ∧
          exit_status (main sdk environ s).2 = 1%Z
      end
  | inl e =>
      (main sdk environ s).2 = Raise e ∧
      exit_status (main sdk environ s).2 = 1%Z
  end.
Proof.
  intros Hp self H1 H2.
  pose proof (main_outcome sdk environ s ds Hp H1 H2) as E. fold self in E.
  destruct (oa_assistants_list _ _ _) as [e|cur]; [by rewrite E|].
  destruct (cur_error cur); by rewrite E.
Qed.

Lemma C6_exit_status_witness :
  let sdk := Sample.sdk Sample.full_listing Sample.deployments false in
  (main sdk Sample.environ Sample.boot).2 = Return tt ∧
  exit_status (main sdk Sample.environ Sample.boot).2 = 0%Z.
Proof.
  intros sdk.
  apply (C6_exit_status sdk Sample.environ Sample.boot Sample.deployments);
    [|reflexivity..].
  intros k Hk Hm. unfold required_vars in Hk.
  repeat (apply elem_of_cons in Hk as [->|Hk]; [discriminate Hm|]).
  by apply elem_of_nil in Hk.
Defined.

(** C6 as stated fails: both connection checks succeed, the listing call
    errors, and [main] ends with an uncaught exception, exit status 1. *)
Lemma C6_counterexample :
  let sdk := Sample.sdk (inl "APIConnectionError") Sample.deployments true in
  let self := Sample.migrator (inl "APIConnectionError") Sample.deployments true in
  oa_models_list (openai_client self) [] = inr tt ∧
  az_models_list (azure_client self) [OpenAI_models_list]
    = inr Sample.deployments ∧
  (main sdk Sample.environ Sample.boot).2 = Raise "APIConnectionError" ∧
  exit_status (main sdk Sample.environ Sample.boot).2 ≠ 0%Z.
Proof. repeat split; done. Qed.

(** ** Failures while processing one assistant *)









(** * Further properties of the code *)

(** ** Frames

    A relation between states that is reflexive, transitive and insensitive
    to logging, to sending requests and to writing a file holds across every
    method of the migrator; when it is also insensitive to sleeping it holds
    across the whole program. *)
Section Preservation.

Context (R : State → State → Prop) `{!PreOrder R}.
Hypothesis R_log : ∀ l s, R s (set_log l s).
Hypothesis R_calls : ∀ c s, R s (set_calls c s).
Hypothesis R_files : ∀ p data s, R s (set_files (<[p := data]> (files s)) s).

Lemma preserves_ret {A} (a : A) : preserves R (mret a).
Proof. intros s. reflexivity. Qed.

Lemma preserves_raise {A} e : preserves R (@raise A e).
Proof. intros s. reflexivity. Qed.

Lemma preserves_sys_exit {A} k : preserves R (@sys_exit A k).
Proof. intros s. reflexivity. Qed.

Lemma preserves_bind {A B} (m : M A) (k : A → M B) :
  preserves R m → (∀ a, preserves R (k a)) → preserves R (m ≫= k).
Proof.
  intros Hm Hk s. rewrite bind_eq. specialize (Hm s).
  destruct (m s) as [s1 [a|e|c]]; simpl in *; [|done..].
  etrans; [exact Hm|apply Hk].
Qed.

Lemma preserves_try {A} (body : M A) (handler : exn → M A) :
  preserves R body → (∀ e, preserves R (handler e)) →
  preserves R (try_except body handler).
Proof.
  intros Hm Hk s. unfold try_except. specialize (Hm s).
  destruct (body s) as [s1 [a|e|c]]; simpl in *; [done| |done].
  etrans; [exact Hm|apply Hk].
Qed.

Lemma preserves_logger_info m : preserves R (logger_info m).
Proof. intros s. apply R_log. Qed.

Lemma preserves_logger_error m : preserves R (logger_error m).
Proof. intros s. apply R_log. Qed.

Lemma preserves_request {A} c (f : list Call → exn + A) :
  preserves R (request c f).
Proof. intros s. apply R_calls. Qed.

Lemma preserves_gettempdir : preserves R gettempdir.
Proof. intros s. reflexivity. Qed.

Lemma preserves_read_file p : preserves R (read_file p).
Proof. intros s. unfold read_file. by destruct (files s !! p). Qed.

Lemma preserves_write_file p data : preserves R (write_file p data).
Proof.
  intros s. unfold write_file. destruct (writable s p); simpl; [apply R_files|done].
Qed.

(** Decomposing a computation along its binds. *)
Ltac frame :=
  repeat first
    [ apply preserves_ret | apply preserves_raise | apply preserves_sys_exit
    | apply preserves_logger_info | apply preserves_logger_error
    | apply preserves_request | apply preserves_gettempdir
    | apply preserves_read_file | apply preserves_write_file
    | assumption
    | match goal with H : _ |- _ => solve [apply H] end
    | apply preserves_bind; [|intros ?; cbv zeta]
    | apply preserves_try; [|intros ?; cbv zeta]
    | match goal with
      | |- preserves _ (match ?x with _ => _ end) => destruct x
      end ].

Lemma preserves_download_file self fid : preserves R (_download_file self fid).
Proof. unfold _download_file. frame. Qed.

Lemma preserves_upload_file self p : preserves R (_upload_file_to_azure self p).
Proof. unfold _upload_file_to_azure. frame. Qed.

Lemma preserves_get_openai_assistants self :
  preserves R (get_openai_assistants self).
Proof. unfold get_openai_assistants, list_of_cursor. frame. Qed.

Lemma preserves_download_files self fids acc :
  preserves R (download_files self fids acc).
Proof.
  revert acc. induction fids as [|fid fids IH]; intros acc; simpl; [frame|].
  apply preserves_bind; [apply preserves_download_file|]. intros p. apply IH.
Qed.

Lemma preserves_get_assistant_details self aid :
  preserves R (get_assistant_details self aid).
Proof.
  pose proof (preserves_download_files self).
  unfold get_assistant_details, fetch_details. frame.
Qed.

Lemma preserves_upload_files self fds acc :
  preserves R (upload_files self fds acc).
Proof.
  revert acc. induction fds as [|fd fds IH]; intros acc; simpl; [frame|].
  apply preserves_bind; [apply preserves_upload_file|].
  intros [fid|]; [destruct (str_truthy fid)|]; apply IH.
Qed.

Lemma preserves_create_azure_assistant self d :
  preserves R (create_azure_assistant self d).
Proof.
  pose proof (preserves_upload_files self).
  unfold create_azure_assistant, create_with_files, file_details_of. frame.
Qed.

Lemma preserves_init sdk k1 k2 k3 v : preserves R (__init__ sdk k1 k2 k3 v).
Proof. unfold __init__. frame. Qed.

(** *** With sleeping *)

Hypothesis R_slept : ∀ n s, R s (set_slept n s).

Lemma preserves_migrate_assistant self a m :
  preserves R (migrate_assistant self a m).
Proof.
  pose proof (preserves_get_assistant_details self).
  pose proof (preserves_create_azure_assistant self).
  assert (∀ n, preserves R (time_sleep n)) by (intros n s; apply R_slept).
  unfold migrate_assistant. frame.
Qed.

Lemma preserves_migrate_loop self items m :
  preserves R (migrate_loop self items m).
Proof.
  revert m. induction items as [|a items IH]; intros m; simpl; [frame|].
  apply preserves_bind; [apply preserves_migrate_assistant|]. intros m'. apply IH.
Qed.

Lemma preserves_migrate_all_assistants self :
  preserves R (migrate_all_assistants self).
Proof.
  pose proof (preserves_migrate_loop self).
  unfold migrate_all_assistants. frame.
Qed.

Lemma preserves_log_summary items : preserves R (log_summary items).
Proof. induction items as [|[sid did] items IH]; simpl; frame. Qed.

Lemma preserves_main sdk environ : preserves R (main sdk environ).
Proof.
  pose proof preserves_init. pose proof preserves_migrate_all_assistants.
  pose proof preserves_log_summary.
  unfold main. frame.
Qed.

End Preservation.

(** A pair from its second component. *)
Lemma pair_from_snd {A B} (p : A * B) (b : B) : p.2 = b → p = (p.1, b).
Proof. destruct p as [a b']. simpl. by intros ->. Qed.

(** The three frames of this development. *)
Lemma same_sleep_preorder : PreOrder same_sleep.
Proof.
  split; [by intros s|]. unfold same_sleep. intros s1 s2 s3 H1 H2. congruence.
Qed.

Lemma same_files_preorder : PreOrder same_files.
Proof.
  split; [by intros s|]. unfold same_files. intros s1 s2 s3 H1 H2. congruence.
Qed.

Lemma files_kept_preorder : PreOrder files_kept.
Proof.
  split; [by intros s|]. unfold files_kept.
  intros s1 s2 s3 (D1 & T1 & W1) (D2 & T2 & W2).
  split; [by etrans|]. split; congruence.
Qed.

(** Nothing but [time.sleep] spends time sleeping. *)
Lemma get_assistant_details_sleep self aid s :
  slept (get_assistant_details self aid s).1 = slept s.
Proof.
  by apply (@preserves_get_assistant_details same_sleep same_sleep_preorder).
Qed.

Lemma create_azure_assistant_sleep self d s :
  slept (create_azure_assistant self d s).1 = slept s.
Proof.
  by apply (@preserves_create_azure_assistant same_sleep same_sleep_preorder).
Qed.

(** Creating the destination assistant, uploads included, writes no local
    file. *)
Lemma create_azure_assistant_files self d s :
  files (create_azure_assistant self d s).1 = files s.
Proof.
  by apply (@preserves_create_azure_assistant same_files same_files_preorder).
Qed.

Lemma files_kept_insert p data s :
  files_kept s (set_files (<[p := data]> (files s)) s).
Proof.
  split; [|done]. simpl. rewrite dom_insert. apply union_subseteq_r.
Qed.

(** ** The resolved model is a deployment *)

Lemma find_some_elem {A} (f : A → bool) l x :
  List.find f l = Some x → x ∈ l ∧ f x = true.
Proof.
  intros H. apply List.find_some in H as [H1 H2]. by rewrite list_elem_of_In.
Qed.

(** X1: whatever model is requested, the model lines 143-147 settle on is
    one of the listed deployments, and asking for it again gives it back;
    there is no model exactly when the destination lists no deployment. *)
Theorem X1_resolve_within_deployments requested ds :
  match resolve_target_model requested ds with
  | Some tm => tm ∈ ds ∧ resolve_target_model (VStr tm) ds = Some tm
  | None => ds = []
  end.
Proof.
  unfold resolve_target_model at 1.
  destruct (not_in_deployments requested ds) eqn:E.
  - unfold next_gpt4. destruct (List.find _ ds) as [g|] eqn:Ef.
    + apply find_some_elem in Ef as [Hin Hg]. unfold py_or.
      rewrite (contains_gpt4_truthy _ Hg). split; [done|by apply resolve_verbatim].
    + simpl. destruct ds as [|d ds]; [done|].
      split; [left|apply resolve_verbatim; left].
  - destruct requested as [|m| |]; simpl in E; try done.
    apply negb_false_iff, bool_decide_eq_true in E.
    split; [done|by apply resolve_verbatim].
Qed.

(** ** Where a download lands *)

Lemma prefix_append a b : String.prefix a (a +:+ b) = true.
Proof.
  induction a as [|c a IH]; simpl; [by destruct b|].
  destruct (Ascii.ascii_dec c c); [exact IH|done].
Qed.

Lemma os_path_join_relative a b :
  startswith b "/" = false → String.prefix a (os_path_join a b) = true.
Proof.
  intros H. unfold os_path_join. rewrite H.
  destruct (negb (str_truthy a) || endswith_char a "/"); apply prefix_append.
Qed.

(** X2: the path of a download is the metadata file name itself when that
    name is absolute: [os.path.join] drops the temporary directory, and the
    payload is written at that path.  With a relative name the path starts
    with the temporary directory. *)
Theorem X2_download_absolute_filename self fid s s' p :
  _download_file self fid s = (s', Return p) →
  ∃ data meta,
    oa_files_content (openai_client self) (calls s) fid = inr data ∧
    oa_files_retrieve (openai_client self)
      (calls s ++ [OpenAI_files_content fid]) fid = inr meta ∧
    files s' !! p = Some data ∧
    if startswith (local_filename meta fid) "/"
    then p = local_filename meta fid
    else String.prefix (tempdir s) p = true.
Proof.
  intros E. apply download_file_returns in E as (data & meta & Hc & Hm & -> & Hf).
  exists data, meta. do 2 (split; [done|]).
  split; [by rewrite Hf, lookup_insert_eq|].
  destruct (startswith _ "/") eqn:Ea.
  - unfold os_path_join. by rewrite Ea.
  - by apply os_path_join_relative.
Qed.

Lemma X2_download_absolute_filename_witness :
  let r := _download_file Outage.migrator_absolute "file_a" Sample.boot in
  r.2 = Return "/etc/motd" ∧
  files r.1 !! "/etc/motd" = Some "content of file_a".
Proof.
  intros r.
  destruct (X2_download_absolute_filename Outage.migrator_absolute "file_a"
              Sample.boot r.1 "/etc/motd")
    as (data & meta & Hc & Hm & Hf & _); [reflexivity|].
  injection Hc as <-. split; [reflexivity|exact Hf].
Defined.

(** ** A download that fails *)



(** ** Fetching the details stops at the first failed request *)

Lemma stops_app self h c1 c2 :
  failures self h c1 = [] → stops_at_failure self (h ++ c1) c2 →
  stops_at_failure self h (c1 ++ c2).
Proof.
  intros H1 [H2|(c0 & x & -> & H2 & Hx)].
  - left. by rewrite failures_app, H1, H2.
  - right. exists (c1 ++ c0), x. split; [by rewrite app_assoc|].
    split; [by rewrite failures_app, H1, H2|by rewrite app_assoc].
Qed.

Lemma stops_one self h x : stops_at_failure self h [x].
Proof.
  destruct (answered_error self h x) eqn:E.
  - right. exists [], x. by rewrite app_nil_r.
  - left. simpl. by rewrite E.
Qed.

Lemma download_file_stops self fid s s' r :
  _download_file self fid s = (s', r) →
  ∃ c, calls s' = calls s ++ c ∧ stops_at_failure self (calls s) c ∧
       (∀ p, r = Return p → failures self (calls s) c = []).
Proof.
  unfold _download_file. unfold_monad.
  unfold request, logger_info, logger_error, write_file. simpl.
  destruct (oa_files_content _ _ _) as [e|data] eqn:Ec; simpl.
  { intros [= <- <-]. exists [OpenAI_files_content fid].
    split; [done|]. split; [apply stops_one|done]. }
  assert (failures self (calls s) [OpenAI_files_content fid] = []) as F1
    by (simpl; by rewrite Ec).
  destruct (oa_files_retrieve _ _ _) as [e|meta] eqn:Em; simpl.
  { intros [= <- <-].
    exists ([OpenAI_files_content fid] ++ [OpenAI_files_retrieve fid]).
    split; [by rewrite <- app_assoc|].
    split; [apply stops_app; [done|apply stops_one]|done]. }
  assert (failures self (calls s)
            ([OpenAI_files_content fid] ++ [OpenAI_files_retrieve fid]) = [])
    as F2 by (simpl; by rewrite Ec, Em).
  destruct (writable s _) eqn:Ew; simpl; intros [= <- <-].
  all: exists ([OpenAI_files_content fid] ++ [OpenAI_files_retrieve fid]).
  all: split; [simpl; by rewrite <- app_assoc|].
  all: split; [by left|done].
Qed.

Lemma download_files_stops self fids acc s s' r :
  download_files self fids acc s = (s', r) →
  ∃ c, calls s' = calls s ++ c ∧ stops_at_failure self (calls s) c ∧
       (∀ fds, r = Return fds → failures self (calls s) c = []).
Proof.
  revert acc s. induction fids as [|fid fids IH]; intros acc s; simpl.
  - unfold_monad. intros [= <- <-]. exists []. rewrite app_nil_r.
    split; [done|]. split; [by left|done].
  - rewrite bind_eq. destruct (_download_file self fid s) as [s1 r1] eqn:E1.
    apply download_file_stops in E1 as (c1 & C1 & S1 & F1).
    destruct r1 as [p|e|k]; [|intros [= <- <-]; exists c1; by split..].
    intros E2. apply IH in E2 as (c2 & C2 & S2 & F2).
    specialize (F1 p eq_refl). rewrite C1 in C2, S2, F2.
    exists (c1 ++ c2). split; [by rewrite app_assoc|].
    split; [by apply stops_app|].
    intros fds ->. rewrite failures_app, F1. by apply (F2 fds).
Qed.

Lemma fetch_details_stops self aid s s' r :
  fetch_details self aid s = (s', r) →
  ∃ c, calls s' = calls s ++ c ∧ stops_at_failure self (calls s) c ∧
       (∀ d, r = Return d → failures self (calls s) c = []).
Proof.
  unfold fetch_details. rewrite bind_eq. unfold request at 1.
  destruct (oa_assistants_retrieve _ _ _) as [e|assistant] eqn:Er.
  { intros [= <- <-]. exists [OpenAI_assistants_retrieve aid].
    split; [done|]. split; [apply stops_one|done]. }
  assert (failures self (calls s) [OpenAI_assistants_retrieve aid] = []) as F0
    by (simpl; by rewrite Er).
  rewrite bind_eq.
  destruct (download_files _ _ _ _) as [s1 r1] eqn:E1.
  apply download_files_stops in E1 as (c1 & C1 & S1 & F1). simpl in C1, S1, F1.
  assert (calls s1 = calls s ++ [OpenAI_assistants_retrieve aid] ++ c1) as C
    by (by rewrite C1, <- app_assoc).
  assert (stops_at_failure self (calls s) ([OpenAI_assistants_retrieve aid] ++ c1))
    as S by (by apply stops_app).
  destruct r1 as [fds|e|k]; unfold_monad; intros [= <- <-]; eexists;
    (split; [exact C|]); (split; [exact S|]); try done.
  intros d _. rewrite failures_app, F0. by apply (F1 fds).
Qed.

(** X4: once a request of [get_assistant_details] is answered by an error
    no further request is sent (the files after a failed download are not
    fetched), and the result is then the empty dictionary. *)
Theorem X4_details_stop_at_failure self aid s :
  let r := get_assistant_details self aid s in
  stops_at_failure self (calls s) (new_calls s r.1) ∧
  (failures self (calls s) (new_calls s r.1) ≠ [] → r.2 = Return ∅).
Proof.
  cbv zeta. rewrite get_assistant_details_eq.
  destruct (fetch_details _ _ _) as [s1 r1] eqn:E1.
  pose proof (fetch_details_no_exit self aid
                (logger_info (FetchingDetails aid) s).1) as X.
  rewrite E1 in X. simpl in X.
  apply fetch_details_stops in E1 as (c & C & S & F). simpl in C, S, F.
  assert (∀ s2, calls s2 = calls s1 → new_calls s s2 = c) as N.
  { intros s2 H. unfold new_calls. by rewrite H, C, drop_app_length. }
  destruct r1 as [d|e|k]; cbn [fst snd].
  - rewrite (N s1 eq_refl). split; [done|]. intros H. by destruct H, (F d).
  - rewrite (N (logger_error (DetailsFailed aid e) s1).1 eq_refl). by split.
  - by destruct (X k).
Qed.

(** ** Uploads, request by request *)

Lemma upload_file_exact self p s :
  ∃ s' o l,
    _upload_file_to_azure self p s = (s', Return o) ∧
    files s' = files s ∧
    Step s s' l (option_list (upload_request (files s) {| fd_id := p; fd_path := p |})) ∧
    o = match files s !! p with
        | Some data =>
            match az_files_create (azure_client self) (calls s) data "assistants" with
            | inr id => Some id
            | inl _ => None
            end
        | None => None
        end.
Proof.
  unfold _upload_file_to_azure, upload_request. unfold_monad.
  unfold request, logger_info, logger_error, read_file. simpl.
  destruct (files s !! p) as [data|] eqn:Ef; simpl.
  - destruct (az_files_create _ _ _ _) as [e|fid] eqn:Ec; simpl;
      eexists _, _, _; (split; [reflexivity|]); (split; [done|]);
      (split; [step_tac|done]).
  - eexists _, _, _. split; [reflexivity|]. split; [done|]. split; [step_tac|done].
Qed.

Lemma uploaded_as_frame self h pre c post id :
  uploaded_as self (h ++ pre) c id → uploaded_as self h (pre ++ c ++ post) id.
Proof.
  intros (c1 & data & c2 & -> & H). exists (pre ++ c1), data, (c2 ++ post).
  split; [by rewrite <- !app_assoc|by rewrite app_assoc].
Qed.

Lemma upload_files_exact self fds acc s :
  ∃ s' added l,
    upload_files self fds acc s = (s', Return (acc ++ added)) ∧
    files s' = files s ∧
    Step s s' l (omap (upload_request (files s)) fds) ∧
    Forall (λ id, str_truthy id = true ∧
                  uploaded_as self (calls s)
                    (omap (upload_request (files s)) fds) id) added ∧
    (length added ≤ length (omap (upload_request (files s)) fds))%nat.
Proof.
  revert acc s. induction fds as [|fd fds IH]; intros acc s.
  - exists s, [], []. simpl. rewrite app_nil_r. split; [done|]. split; [done|].
    split; [apply Step_refl|]. split; [constructor|done].
  - cbn [upload_files]. rewrite bind_eq.
    destruct (upload_file_exact self (fd_path fd) s) as (s1 & o & l1 & -> & F1 & S1 & Ho).
    set (c1 := option_list (upload_request (files s)
                 {| fd_id := fd_path fd; fd_path := fd_path fd |})) in *.
    assert (omap (upload_request (files s)) (fd :: fds)
            = c1 ++ omap (upload_request (files s)) fds) as ->.
    { unfold c1. cbn [omap list_omap]. unfold upload_request. simpl.
      by destruct (files s !! fd_path fd). }
    set (c2 := omap (upload_request (files s)) fds).
    assert (calls s1 = calls s ++ c1) as C1 by apply S1.
    assert (∀ acc',
      ∃ s' added l,
        upload_files self fds acc' s1 = (s', Return (acc' ++ added)) ∧
        files s' = files s ∧
        Step s s' l (c1 ++ c2) ∧
        Forall (λ id, str_truthy id = true ∧
                      uploaded_as self (calls s) (c1 ++ c2) id) added ∧
        (length added ≤ length c2)%nat) as Rest.
    { intros acc'. destruct (IH acc' s1) as (s' & added & l2 & E & F2 & S2 & U2 & L2).
      rewrite F1 in S2, U2, L2. fold c2 in S2, U2, L2.
      exists s', added, (l1 ++ l2). split; [done|]. split; [congruence|].
      split; [by eapply Step_trans|]. split; [|done].
      eapply Forall_impl; [exact U2|]. intros id [Ht Hu]. split; [done|].
      rewrite C1 in Hu.
      pose proof (uploaded_as_frame _ _ _ _ [] _ Hu) as Hu'.
      by rewrite app_nil_r in Hu'. }
    assert (∀ added : list string,
              (length added ≤ length c2)%nat →
              (length added ≤ length (c1 ++ c2))%nat) as Hlen.
    { intros added. rewrite length_app. lia. }
    destruct (files s !! fd_path fd) as [data|] eqn:Ef.
    2:{ subst o. destruct (Rest acc) as (s' & added & l & E & F & S & U & L).
        exists s', added, l. do 4 (split; [done|]). by apply Hlen. }
    destruct (az_files_create _ _ _ _) as [e|fid] eqn:Ec; subst o.
    { destruct (Rest acc) as (s' & added & l & E & F & S & U & L).
      exists s', added, l. do 4 (split; [done|]). by apply Hlen. }
    destruct (str_truthy fid) eqn:Et.
    2:{ destruct (Rest acc) as (s' & added & l & E & F & S & U & L).
        exists s', added, l. do 4 (split; [done|]). by apply Hlen. }
    destruct (Rest (acc ++ [fid])) as (s' & added & l & E & F & S & U & L).
    exists s', (fid :: added), l. rewrite <- app_assoc in E.
    split; [done|]. do 2 (split; [done|]).
    assert (c1 = [Azure_files_create data "assistants"]) as Hc1.
    { unfold c1, upload_request. simpl. by rewrite Ef. }
    split; [|rewrite Hc1; simpl; lia].
    constructor; [|done]. split; [done|].
    exists [], data, c2. split; [by rewrite Hc1|]. by rewrite app_nil_r.
Qed.

(** X5: the upload loop of [create_azure_assistant] never raises and never
    touches a local file.  It sends one request per file detail whose local
    file exists, in order, carrying the content found at the path, and none
    for a missing file; every id it collects is non-empty and answers one of
    these requests. *)
Theorem X5_upload_files_requests self fds acc s :
  ∃ s' added,
    upload_files self fds acc s = (s', Return (acc ++ added)) ∧
    files s' = files s ∧
    new_calls s s' = omap (upload_request (files s)) fds ∧
    Forall (λ id, str_truthy id = true ∧
                  uploaded_as self (calls s) (new_calls s s') id) added ∧
    (length added ≤ length (new_calls s s'))%nat.
Proof.
  destruct (upload_files_exact self fds acc s) as (s' & added & l & E & F & S & U & L).
  exists s', added. rewrite (Step_new_calls _ _ _ _ S). by repeat split.
Qed.

(** ** From the source to the destination, byte for byte *)

(** X6: when a download returned a path and the file at that path is still
    what the download wrote, uploading the path sends exactly the bytes the
    source answered for the file. *)
Theorem X6_download_upload_round_trip self fid s s1 p s2 :
  _download_file self fid s = (s1, Return p) →
  files s2 !! p = files s1 !! p →
  ∃ data,
    oa_files_content (openai_client self) (calls s) fid = inr data ∧
    new_calls s2 (_upload_file_to_azure self p s2).1
      = [Azure_files_create data "assistants"].
Proof.
  intros E Hf. apply download_file_returns in E as (data & meta & Hc & _ & _ & Hw).
  rewrite Hw, lookup_insert_eq in Hf.
  exists data. split; [done|].
  destruct (upload_file_exact self p s2) as (s3 & o & l & -> & _ & S & _).
  cbn [fst]. rewrite (Step_new_calls _ _ _ _ S). unfold upload_request. simpl. by rewrite Hf.
Qed.

Lemma X6_download_upload_round_trip_witness :
  let self := Sample.migrator Sample.full_listing Sample.deployments true in
  let d := _download_file self "file_a" Sample.boot in
  d.2 = Return "/tmp/notes.txt" ∧
  new_calls d.1 (_upload_file_to_azure self "/tmp/notes.txt" d.1).1
    = [Azure_files_create "content of file_a" "assistants"].
Proof.
  intros self d.
  destruct (X6_download_upload_round_trip self "file_a" Sample.boot d.1
              "/tmp/notes.txt" d.1) as (data & Hc & Hu); [reflexivity..|].
  injection Hc as <-. split; [reflexivity|exact Hu].
Defined.

(** ** The file details of an assistant *)

Lemma download_files_result self fids acc s s' fds :
  download_files self fids acc s = (s', Return fds) →
  fd_id <$> fds = (fd_id <$> acc) ++ fids ∧
  (Forall (λ fd, is_Some (files s !! fd_path fd)) acc →
   Forall (λ fd, is_Some (files s' !! fd_path fd)) fds).
Proof.
  revert acc s. induction fids as [|fid fids IH]; intros acc s; simpl.
  - unfold_monad. intros [= <- <-]. by rewrite app_nil_r.
  - rewrite bind_eq. destruct (_download_file self fid s) as [s1 r1] eqn:E1.
    destruct r1 as [p|e|k]; [|done..].
    apply download_file_returns in E1 as (data & meta & _ & _ & _ & Hw).
    intros E2. apply IH in E2 as [Hids Hfiles].
    split.
    + rewrite Hids, fmap_app. simpl. by rewrite <- app_assoc.
    + intros Hacc. apply Hfiles. apply Forall_app_2.
      * eapply Forall_impl; [exact Hacc|]. intros fd Hfd. simpl in *.
        rewrite Hw. destruct (decide (p = fd_path fd)) as [->|Hne].
        -- by rewrite lookup_insert_eq.
        -- by rewrite lookup_insert_ne.
      * constructor; [|constructor]. simpl. by rewrite Hw, lookup_insert_eq.
Qed.

Lemma get_assistant_details_files self aid s s' d :
  get_assistant_details self aid s = (s', Return d) → d ≠ ∅ →
  ∃ r fds,
    oa_assistants_retrieve (openai_client self) (calls s) aid = inr r ∧
    d = details_dict r fds ∧
    fd_id <$> fds = asst_file_ids r ∧
    Forall (λ fd, is_Some (files s' !! fd_path fd)) fds.
Proof.
  rewrite get_assistant_details_eq. unfold fetch_details. rewrite bind_eq.
  unfold request at 1. simpl.
  destruct (oa_assistants_retrieve _ _ _) as [e|r] eqn:Er.
  { by intros [= <- <-]. }
  rewrite bind_eq.
  destruct (download_files _ _ _ _) as [s1 r1] eqn:E1.
  destruct r1 as [fds|e|k]; unfold_monad.
  - intros [= <- <-] _. apply download_files_result in E1 as [Hids Hfiles].
    exists r, fds. do 2 (split; [done|]). split; [done|]. by apply Hfiles.
  - by intros [= <- <-].
  - done.
Qed.

(** X7: a non-empty result of [get_assistant_details] lists under
    [file_details] the files of the retrieved assistant, one entry per file
    id and in the same order, and every recorded path holds a local file
    when the method returns. *)
Theorem X7_details_file_details self aid s s' d :
  get_assistant_details self aid s = (s', Return d) → d ≠ ∅ →
  ∃ r fds,
    oa_assistants_retrieve (openai_client self) (calls s) aid = inr r ∧
    d !! "file_details" = Some (VFiles fds) ∧
    fd_id <$> fds = asst_file_ids r ∧
    Forall (λ fd, fd_path fd ∈ dom (files s')) fds.
Proof.
  intros E Hd.
  destruct (get_assistant_details_files _ _ _ _ _ E Hd) as (r & fds & Hr & -> & Hids & Hf).
  exists r, fds. do 3 (split; [done|]).
  eapply Forall_impl; [exact Hf|]. intros fd H. by apply elem_of_dom.
Qed.

Lemma X7_details_file_details_witness :
  let self := Sample.migrator Sample.full_listing Sample.deployments true in
  let r := get_assistant_details self "asst_1" Sample.boot in
  let fds := [{| fd_id := "file_a"; fd_path := "/tmp/notes.txt" |};
              {| fd_id := "file_b"; fd_path := "/tmp/notes.txt" |}] in
  r.2 = Return (details_dict Sample.helper fds) ∧
  Forall (λ fd, fd_path fd ∈ dom (files r.1)) fds.
Proof.
  intros self r fds.
  destruct (X7_details_file_details self "asst_1" Sample.boot r.1
              (details_dict Sample.helper fds))
    as (a & fds' & _ & Hfd & _ & Hf);
    [apply pair_from_snd; vm_compute; reflexivity|apply details_dict_nonempty|].
  rewrite details_dict_file_details in Hfd. injection Hfd as <-.
  split; [vm_compute; reflexivity|exact Hf].
Defined.

(** ** What a creation request carries *)

Lemma create_outcome_request self d ids h l cc o req :
  create_outcome self d ids h l cc o → Azure_assistants_create req ∈ cc →
  ∃ ds tm,
    az_models_list (azure_client self) h = inr ds ∧
    resolve_target_model (dict_get d "model") ds = Some tm ∧
    str_truthy tm = true ∧ req = create_request d tm ids.
Proof.
  unfold create_outcome.
  destruct (az_models_list _ _) as [e|ds];
    [intros (_ & -> & _) H; by apply elem_of_nil in H|].
  destruct (resolve_target_model _ _) as [tm|] eqn:Er;
    [|intros (_ & -> & _) H; by apply elem_of_nil in H].
  destruct (str_truthy tm) eqn:Et;
    [|intros (_ & -> & _) H; by apply elem_of_nil in H].
  intros [-> _] H. apply list_elem_of_singleton in H. injection H as ->.
  by exists ds, tm.
Qed.

Lemma omap_length_le {A B} (f : A → option B) (l : list A) :
  (length (omap f l) ≤ length l)%nat.
Proof.
  induction l as [|x l IH]; [done|]. cbn [omap list_omap].
  destruct (f x); simpl; lia.
Qed.

(** The two phases of the loop body: the details, then, unless they are
    empty, the creation, the closing record and the pause. *)
Lemma migrate_assistant_phases self a m s s' out :
  migrate_assistant self a m s = (s', out) →
  ∃ s1 d,
    get_assistant_details self (asst_id a)
      (logger_info (Migrating (asst_name a)) s).1 = (s1, Return d) ∧
    ((d = ∅ ∧ s' = s1 ∧ out = Return m) ∨
     (d ≠ ∅ ∧
      ∃ s2 o x m',
        create_azure_assistant self d s1 = (s2, Return o) ∧
        s' = (time_sleep 1 (set_log (log s2 ++ [x]) s2)).1 ∧
        out = Return m' ∧ is_mark x = true ∧ is_details_failed x = false ∧
        match o with
        | Some did =>
            if str_truthy did then
              m' = dict_setitem (asst_id a) did m ∧
              x = (INFO, Migrated (asst_id a) did)
            else m' = m ∧ x = (ERROR, MigrateFailed (asst_id a))
        | None => m' = m ∧ x = (ERROR, MigrateFailed (asst_id a))
        end)).
Proof.
  unfold migrate_assistant. rewrite bind_eq.
  unfold logger_info at 1. cbv beta iota. cbn [fst]. set (s0 := set_log _ s).
  rewrite bind_eq.
  destruct (get_assistant_details self (asst_id a) s0) as [s1 r1] eqn:E1.
  pose proof E1 as E1'.
  apply get_assistant_details_spec in E1' as (l1 & c1 & d & -> & S1 & D1 & H1).
  destruct H1 as [[-> _]|(r0 & fds & Hr & -> & _)].
  - rewrite bool_decide_eq_true_2 by done. unfold_monad. intros [= <- <-].
    exists s1, ∅. split; [done|]. by left.
  - rewrite bool_decide_eq_false_2 by apply details_dict_nonempty.
    rewrite bind_eq.
    destruct (create_azure_assistant self _ s1) as [s2 r2] eqn:E2.
    pose proof E2 as E2'.
    eapply create_spec in E2' as (l2 & lu & cu & su & ids & cc & o & -> & _);
      [|apply details_dict_file_details].
    destruct o as [did|]; [destruct (str_truthy did) eqn:Ed|];
      unfold_monad; unfold logger_info, logger_error, time_sleep; simpl;
      intros [= <- <-]; exists s1, (details_dict r0 fds); (split; [done|]);
      right; (split; [apply details_dict_nonempty|]);
      eexists s2, _, _, _; (split; [exact E2|]);
      (split; [reflexivity|]); rewrite ?Ed; by repeat split.
Qed.

Lemma migrate_assistant_requests self a m s s' out :
  migrate_assistant self a m s = (s', out) →
  ∃ c, calls s' = calls s ++ c ∧
    ∀ req, Azure_assistants_create req ∈ c →
    ∃ r ds c1 c2,
      oa_assistants_retrieve (openai_client self) (calls s) (asst_id a) = inr r ∧
      c = c1 ++ Azure_models_list :: c2 ∧
      az_models_list (azure_client self) (calls s ++ c1) = inr ds ∧
      resolve_target_model (VStr (asst_model r)) ds = Some (cr_model req) ∧
      str_truthy (cr_model req) = true ∧
      cr_name req = of_optional (asst_name r) ∧
      cr_instructions req = of_optional (asst_instructions r) ∧
      cr_tools req = VTools (asst_tools r) ∧
      Forall (λ id, str_truthy id = true ∧ uploaded_as self (calls s) c id)
        (cr_file_ids req) ∧
      (length (cr_file_ids req) ≤ length (asst_file_ids r))%nat.
Proof.
  intros E. apply migrate_assistant_phases in E as (s1 & d & E1 & H).
  set (s0 := (logger_info (Migrating (asst_name a)) s).1) in *.
  pose proof E1 as E1'.
  apply get_assistant_details_spec in E1' as (l1 & c1 & d' & [= <-] & S1 & D1 & _).
  assert (calls s1 = calls s ++ OpenAI_assistants_retrieve (asst_id a) :: c1) as C1
    by apply S1.
  destruct H as [(-> & -> & ->)|(Hd & s2 & o & x & m' & E2 & -> & -> & _)].
  { eexists. split; [exact C1|]. intros req Hreq.
    apply elem_of_cons in Hreq as [?|Hreq]; [done|].
    rewrite Forall_forall in D1. by apply D1 in Hreq. }
  destruct (get_assistant_details_files _ _ _ _ _ E1 Hd)
    as (r & fds & Hr & -> & Hids & _).
  pose proof E2 as E2'.
  eapply create_spec in E2'
    as (l2 & lu & cu & su & ids & cc & o' & [= <-] & Eu & P & S2 & _ & _ & O);
    [|apply details_dict_file_details].
  destruct P as (Su & _ & Uu & _).
  destruct (upload_files_exact self fds []
              (logger_info (Creating (dict_get (details_dict r fds) "name")) s1).1)
    as (su' & added & lu' & Eu' & _ & Su' & Ua & La).
  rewrite Eu in Eu'. injection Eu' as <- ->.
  assert (cu = omap (upload_request (files s1)) fds) as Hcu.
  { pose proof (step_calls _ _ _ _ Su) as X1.
    pose proof (step_calls _ _ _ _ Su') as X2.
    rewrite X1 in X2. by apply app_inv_head in X2. }
  cbn [fst logger_info calls files set_log] in Ua, La. rewrite <- Hcu in Ua, La.
  exists (OpenAI_assistants_retrieve (asst_id a) :: c1 ++ cu ++ Azure_models_list :: cc).
  split.
  { simpl. rewrite (step_calls _ _ _ _ S2), C1, <- ?app_assoc. simpl.
    by rewrite <- ?app_assoc. }
  intros req Hreq.
  apply elem_of_cons in Hreq as [?|Hreq]; [done|].
  apply elem_of_app in Hreq as [Hreq|Hreq].
  { rewrite Forall_forall in D1. by apply D1 in Hreq. }
  apply elem_of_app in Hreq as [Hreq|Hreq].
  { rewrite Forall_forall in Uu. by apply Uu in Hreq. }
  apply elem_of_cons in Hreq as [?|Hreq]; [done|].
  destruct (create_outcome_request _ _ _ _ _ _ _ _ O Hreq) as (ds & tm & Hds & Htm & Ht & ->).
  exists r, ds, (OpenAI_assistants_retrieve (asst_id a) :: c1 ++ cu), cc.
  split; [exact Hr|]. split; [simpl; by rewrite <- !app_assoc|].
  split.
  { rewrite C1 in Hds. rewrite <- app_assoc in Hds. exact Hds. }
  do 5 (split; [done|]). cbn [create_request cr_file_ids]. split.
  - eapply Forall_impl; [exact Ua|]. intros id [Hid Hu]. split; [done|].
    rewrite C1 in Hu.
    pose proof (uploaded_as_frame _ _ _ _ (Azure_models_list :: cc) _ Hu) as Hu'.
    exact Hu'.
  - rewrite <- Hids, length_fmap. etrans; [exact La|].
    rewrite Hcu. apply omap_length_le.
Qed.

(** X8: a creation request sent while an assistant is processed carries
    the name, the instructions and the tools of the assistant as retrieved,
    unmodified; its model is the one resolved from the assistant's model
    and the deployments listed just before; and its file ids are non-empty
    answers of upload requests sent for this very assistant, at most one
    per attached file. *)
Theorem X8_creation_request_contents self a m s req :
  let s' := (migrate_assistant self a m s).1 in
  Azure_assistants_create req ∈ new_calls s s' →
  ∃ r ds c1 c2,
    oa_assistants_retrieve (openai_client self) (calls s) (asst_id a) = inr r ∧
    new_calls s s' = c1 ++ Azure_models_list :: c2 ∧
    az_models_list (azure_client self) (calls s ++ c1) = inr ds ∧
    resolve_target_model (VStr (asst_model r)) ds = Some (cr_model req) ∧
    str_truthy (cr_model req) = true ∧
    cr_name req = of_optional (asst_name r) ∧
    cr_instructions req = of_optional (asst_instructions r) ∧
    cr_tools req = VTools (asst_tools r) ∧
    Forall (λ id, str_truthy id = true ∧
                  uploaded_as self (calls s) (new_calls s s') id)
      (cr_file_ids req) ∧
    (length (cr_file_ids req) ≤ length (asst_file_ids r))%nat.
Proof.
  cbv zeta. destruct (migrate_assistant self a m s) as [s' out] eqn:E.
  apply migrate_assistant_requests in E as (c & C & H). cbn [fst].
  assert (new_calls s s' = c) as -> by (unfold new_calls; by rewrite C, drop_app_length).
  apply H.
Qed.

Lemma X8_creation_request_contents_witness :
  let self := Sample.migrator Sample.full_listing Sample.deployments true in
  let s' := (migrate_assistant self Sample.helper [] Sample.boot).1 in
  let req := {| cr_name := VStr "Helper"; cr_instructions := VStr "Be kind";
                cr_model := "gpt-4-turbo"; cr_tools := VTools [ToolRetrieval];
                cr_file_ids := ["assistant-file-5"; "assistant-file-6"] |} in
  Azure_assistants_create req ∈ new_calls Sample.boot s' ∧
  Forall (λ id, uploaded_as self [] (new_calls Sample.boot s') id)
    (cr_file_ids req).
Proof.
  intros self s' req.
  assert (Azure_assistants_create req ∈ new_calls Sample.boot s') as H
    by (vm_compute; in_list).
  split; [exact H|].
  destruct (X8_creation_request_contents self Sample.helper [] Sample.boot req H)
    as (r & ds & c1 & c2 & _ & _ & _ & _ & _ & _ & _ & _ & Hf & _).
  eapply Forall_impl; [exact Hf|]. by intros id [_ Hu].
Defined.

(** ** Details with missing keys *)

Lemma create_azure_assistant_no_file_details self d s :
  d !! "file_details" = None →
  create_azure_assistant self d s
  = create_with_files self d []
      (logger_info (Creating (dict_get d "name")) s).1.
Proof.
  intros H. unfold create_azure_assistant, file_details_of, dict_get_default.
  rewrite H. reflexivity.
Qed.

(** X9: [create_azure_assistant] reads the details with [dict.get], so a
    dictionary without [file_details] is handled like one with no file: the
    method returns, sends no upload request and writes no local file, and a
    creation request carries no file id; a missing [name], [instructions]
    or [tools] is sent as [None], [None] and the empty list, and with a
    missing [model] the model is the fallback among the deployments. *)
Theorem X9_create_with_missing_keys self d s :
  d !! "file_details" = None →
  ∃ s' o,
    create_azure_assistant self d s = (s', Return o) ∧
    files s' = files s ∧
    Forall (λ c, is_upload c = false) (new_calls s s') ∧
    ∀ req, Azure_assistants_create req ∈ new_calls s s' →
      cr_file_ids req = [] ∧
      (d !! "name" = None → cr_name req = VNone) ∧
      (d !! "instructions" = None → cr_instructions req = VNone) ∧
      (d !! "tools" = None → cr_tools req = VTools []) ∧
      (d !! "model" = None →
       ∃ ds, az_models_list (azure_client self) (calls s) = inr ds ∧
             py_or (next_gpt4 ds) (head ds) = Some (cr_model req)).
Proof.
  intros Hfd. pose proof (create_azure_assistant_files self d s) as Hf.
  rewrite (create_azure_assistant_no_file_details _ _ _ Hfd) in Hf |- *.
  set (s0 := (logger_info (Creating (dict_get d "name")) s).1) in *.
  destruct (create_with_files self d [] s0) as [s' r] eqn:E.
  apply create_with_files_spec in E as (l & cc & o & -> & S & _ & O).
  exists s', o. split; [done|]. split; [exact Hf|].
  assert (new_calls s s' = Azure_models_list :: cc) as ->.
  { unfold new_calls. rewrite (step_calls _ _ _ _ S). simpl.
    by rewrite drop_app_length. }
  split.
  { destruct (create_outcome_requests _ _ _ _ _ _ _ O) as [->|[tm ->]];
      by repeat constructor. }
  intros req Hreq. apply elem_of_cons in Hreq as [?|Hreq]; [done|].
  destruct (create_outcome_request _ _ _ _ _ _ _ _ O Hreq)
    as (ds & tm & Hds & Htm & Ht & ->).
  cbn [create_request cr_file_ids cr_name cr_instructions cr_tools cr_model].
  unfold dict_get, dict_get_default.
  split; [done|]. split; [by intros ->|]. split; [by intros ->|].
  split; [by intros ->|].
  intros Hm. exists ds. split; [exact Hds|].
  unfold dict_get in Htm. rewrite Hm in Htm. simpl in Htm.
  unfold resolve_target_model in Htm. simpl in Htm. by destruct ds.
Qed.

Lemma X9_create_with_missing_keys_witness :
  let self := Sample.migrator Sample.full_listing Sample.deployments true in
  let r := create_azure_assistant self ∅ Sample.boot in
  r.2 = Return (Some "asst_azure_1") ∧
  new_calls Sample.boot r.1
  = [Azure_models_list;
     Azure_assistants_create
       {| cr_name := VNone; cr_instructions := VNone;
          cr_model := "gpt-4-turbo"; cr_tools := VTools [];
          cr_file_ids := [] |}].
Proof.
  intros self r.
  destruct (X9_create_with_missing_keys self ∅ Sample.boot) as (s' & o & E & _);
    [reflexivity|].
  split; reflexivity.
Defined.

(** ** The pause between assistants *)

Lemma filter_details_failed_mark l :
  List.filter is_details_failed l
  = List.filter is_details_failed (List.filter is_mark l).
Proof.
  induction l as [|[lv x] l IH]; [done|]. simpl.
  destruct x; simpl; by rewrite ?IH.
Qed.

Lemma filter_details_failed_quiet l :
  quiet l → List.filter is_details_failed l = [].
Proof.
  intros Q. by rewrite filter_details_failed_mark, (quiet_filter _ Q).
Qed.

Lemma migrate_assistant_sleep self a m s s' out :
  migrate_assistant self a m s = (s', out) →
  ∃ l, log s' = log s ++ l ∧
       slept s' + length (List.filter is_details_failed l) = slept s + 1.
Proof.
  intros E. apply migrate_assistant_phases in E as (s1 & d & E1 & H).
  set (s0 := (logger_info (Migrating (asst_name a)) s).1) in *.
  pose proof (get_assistant_details_sleep self (asst_id a) s0) as Z1.
  rewrite E1 in Z1. cbn [fst] in Z1. unfold s0 in Z1. simpl in Z1.
  pose proof E1 as E1'.
  apply get_assistant_details_spec in E1' as (l1 & c1 & d' & [= <-] & S1 & _ & H1).
  assert (log s1 = log s ++ (INFO, Migrating (asst_name a)) :: l1) as L1.
  { rewrite (step_log _ _ _ _ S1). simpl. by rewrite <- app_assoc. }
  destruct H as [(-> & -> & _)|(Hd & s2 & o & x & m' & E2 & -> & _ & Hx & Hx' & _)].
  - exists ((INFO, Migrating (asst_name a)) :: l1). split; [exact L1|].
    destruct H1 as [[_ [e He]]|(r & fds & _ & Hd & _)];
      [|by destruct (details_dict_nonempty r fds)].
    rewrite filter_details_failed_mark. simpl. rewrite He. simpl. lia.
  - destruct H1 as [[Hd' _]|(r & fds & _ & -> & Q1 & _)]; [done|].
    pose proof (create_azure_assistant_sleep self (details_dict r fds) s1) as Z2.
    rewrite E2 in Z2. cbn [fst] in Z2.
    eapply create_spec in E2
      as (l2 & lu & cu & su & ids & cc & o' & _ & _ & _ & S2 & Q2 & _);
      [|apply details_dict_file_details].
    exists (((INFO, Migrating (asst_name a)) :: l1) ++ l2 ++ [x]).
    split.
    { simpl. rewrite (step_log _ _ _ _ S2), L1. by rewrite <- !app_assoc. }
    pose proof (filter_details_failed_quiet _ Q1) as F1.
    pose proof (filter_details_failed_quiet _ Q2) as F2.
    rewrite !List.filter_app. simpl. unfold LogRecord in *.
    rewrite F1, F2, Hx'. simpl. lia.
Qed.

Lemma migrate_loop_sleep self items m s s' out :
  migrate_loop self items m s = (s', out) →
  ∃ l, log s' = log s ++ l ∧
       slept s' + length (List.filter is_details_failed l)
       = slept s + length items.
Proof.
  revert m s. induction items as [|a items IH]; intros m s; simpl.
  - unfold_monad. intros [= <- <-]. exists []. rewrite app_nil_r. split; [done|]. simpl. lia.
  - rewrite bind_eq. destruct (migrate_assistant self a m s) as [s1 r1] eqn:E1.
    pose proof E1 as E1'.
    apply migrate_assistant_spec in E1' as (m1 & l0 & c0 & -> & _).
    apply migrate_assistant_sleep in E1 as (l1 & L1 & Z1).
    intros E2. apply IH in E2 as (l2 & L2 & Z2).
    exists (l1 ++ l2). split; [by rewrite L2, L1, <- app_assoc|].
    rewrite List.filter_app, length_app. lia.
Qed.

Lemma migrate_all_sleep self s cur s' out :
  oa_assistants_list (openai_client self) (calls s) 100 = inr cur →
  migrate_all_assistants self s = (s', out) →
  ∃ l, log s' = log s ++ l ∧
       slept s' + length (List.filter is_details_failed l)
       = slept s + length (cur_items cur).
Proof.
  intros Hl. unfold migrate_all_assistants. rewrite bind_eq.
  unfold request at 1. rewrite Hl. rewrite bind_eq.
  destruct (migrate_loop self (cur_items cur) [] _) as [s1 r1] eqn:E.
  pose proof E as E'. apply migrate_loop_run in E' as (m' & segs & -> & _).
  apply migrate_loop_sleep in E as (l & L & Z). simpl in L, Z.
  destruct (cur_error cur); unfold_monad; intros [= <- <-]; by exists l.
Qed.

(** X10: [migrate_all_assistants] sleeps one second after every listing
    entry whose details were fetched, the last one included, and not at all
    after an entry whose details failed ([continue] skips the pause): the
    seconds slept and the [DetailsFailed] records add up to the number of
    entries. *)
Theorem X10_one_second_per_fetched_assistant self s cur :
  oa_assistants_list (openai_client self) (calls s) 100 = inr cur →
  let s' := (migrate_all_assistants self s).1 in
  slept s' + length (List.filter is_details_failed (new_log s s'))
  = slept s + length (cur_items cur).
Proof.
  intros Hl. cbv zeta.
  destruct (migrate_all_assistants self s) as [s' out] eqn:E. cbn [fst].
  destruct (migrate_all_sleep _ _ _ _ _ Hl E) as (l & L & Z).
  assert (new_log s s' = l) as -> by (unfold new_log; by rewrite L, drop_app_length).
  exact Z.
Qed.

Lemma X10_one_second_per_fetched_assistant_witness :
  let cur := {| cur_items := [Sample.broken; Sample.plain]; cur_error := None |} in
  let self := Sample.migrator (inr cur) Sample.deployments true in
  slept (migrate_all_assistants self Sample.boot).1 = 1.
Proof.
  intros cur self.
  pose proof (X10_one_second_per_fetched_assistant self Sample.boot cur eq_refl)
    as H.
  cbv zeta in H.
  assert (length (List.filter is_details_failed
            (new_log Sample.boot (migrate_all_assistants self Sample.boot).1)) = 1)
    as Hf by (vm_compute; reflexivity).
  rewrite Hf in H. simpl in H. lia.
Defined.

(** ** Local files are never removed *)

(** X11: whatever happens during a run of [main], every local file that
    existed before still exists afterwards, on the same host: the script
    never deletes a file, the ones it downloaded included.  And creating a
    destination assistant, uploads included, leaves every local file as it
    was. *)
Theorem X11_local_files_are_kept sdk environ self d s :
  files_kept s (main sdk environ s).1 ∧
  same_files s (create_azure_assistant self d s).1.
Proof.
  split.
  - apply (@preserves_main files_kept files_kept_preorder); try done.
    apply files_kept_insert.
  - apply create_azure_assistant_files.
Qed.

(** ** The wrapped listing, all or nothing *)

(** X12: when the listing call is answered, [get_openai_assistants] returns
    every item of the cursor if the cursor ends normally; if fetching a
    later page fails, the items already yielded are dropped: the error is
    logged and the result is the empty list.  Either way the method
    returns, having sent the one listing request. *)
Theorem X12_get_openai_assistants_answered self s cur :
  oa_assistants_list (openai_client self) (calls s) 100 = inr cur →
  ∃ s',
    get_openai_assistants self s
      = (s', Return match cur_error cur with
                    | None => cur_items cur
                    | Some _ => []
                    end) ∧
    new_calls s s' = [OpenAI_assistants_list 100] ∧
    new_log s s'
      = (INFO, Literal "Fetching assistants from OpenAI …")
        :: match cur_error cur with
           | None => []
           | Some e => [(ERROR, AssistantFetchFailed e)]
           end.
Proof.
  intros Hl. unfold get_openai_assistants, list_of_cursor. unfold_monad.
  unfold request, logger_info, logger_error. simpl. rewrite Hl.
  destruct (cur_error cur) as [e|]; simpl; eexists; (split; [reflexivity|]).
  all: unfold new_calls, new_log; simpl; rewrite <- ?app_assoc.
  all: by rewrite !drop_app_length.
Qed.

Lemma X12_get_openai_assistants_answered_witness :
  let self := Sample.migrator Outage.broken_listing Sample.deployments true in
  (get_openai_assistants self Sample.boot).2 = Return [] ∧
  (ERROR, AssistantFetchFailed "APITimeoutError")
    ∈ log (get_openai_assistants self Sample.boot).1.
Proof.
  intros self.
  destruct (X12_get_openai_assistants_answered self Sample.boot
              {| cur_items := [Sample.plain; Sample.helper];
                 cur_error := Some "APITimeoutError" |} eq_refl)
    as (s' & E & _ & Hlog).
  rewrite E. split; [reflexivity|]. cbn [fst].
  change (log s') with (drop (length (log Sample.boot)) (log s')).
  fold (new_log Sample.boot s'). rewrite Hlog. in_list.
Defined.

(** ** A failed connection check *)

Lemma init_check_failed sdk k1 k2 k3 v s :
  let self := {| openai_client := OpenAI sdk k1;
                 azure_client := AzureOpenAI sdk k2 v k3 |} in
  failures self (calls s) [OpenAI_models_list; Azure_models_list] ≠ [] →
  ∃ s',
    __init__ sdk k1 k2 k3 v s = (s', SysExit 1) ∧
    match oa_models_list (openai_client self) (calls s) with
    | inl e => Step s s' [(ERROR, ConnectFailedOpenAI e)] [OpenAI_models_list]
    | inr _ =>
        ∃ e, az_models_list (azure_client self)
               (calls s ++ [OpenAI_models_list]) = inl e ∧
             Step s s'
               [(INFO, Literal "Successfully connected to OpenAI API");
                (ERROR, ConnectFailedAzure e)]
               [OpenAI_models_list; Azure_models_list]
    end.
Proof.
  intros self. unfold __init__. fold self. unfold_monad.
  unfold request, logger_info, logger_error. simpl.
  destruct (oa_models_list _ _) as [e|u]; simpl.
  { intros _. eexists. split; [reflexivity|]. step_tac. }
  destruct (az_models_list _ _) as [e|ds]; simpl; [|done].
  intros _. eexists. split; [reflexivity|]. exists e. split; [done|]. step_tac.
Qed.

(** X13: with the three values configured, if one of the two connection
    checks is answered by an error, [main] ends with [sys.exit(1)], after
    logging which connection failed.  The destination is not contacted when
    the source check fails, and in neither case is the listing requested
    or anything migrated. *)
Theorem X13_main_connection_check_fails sdk (environ : gmap string string) s :
  let self := configured sdk environ in
  (∀ k, k ∈ required_vars → ¬ missing environ k) →
  failures self (calls s) [OpenAI_models_list; Azure_models_list] ≠ [] →
  ∃ s',
    main sdk environ s = (s', SysExit 1) ∧
    exit_status (main sdk environ s).2 = 1%Z ∧
    match oa_models_list (openai_client self) (calls s) with
    | inl e =>
        new_calls s s' = [OpenAI_models_list] ∧
        new_log s s' = [(ERROR, ConnectFailedOpenAI e)]
    | inr _ =>
        ∃ e, az_models_list (azure_client self)
               (calls s ++ [OpenAI_models_list]) = inl e ∧
             new_calls s s' = [OpenAI_models_list; Azure_models_list] ∧
             new_log s s'
               = [(INFO, Literal "Successfully connected to OpenAI API");
                  (ERROR, ConnectFailedAzure e)]
    end.
Proof.
  intros self Hp Hf. apply all_present in Hp. unfold configured in self.
  destruct (init_check_failed sdk _ _ _ "2023-12-01-preview" s Hf) as (s' & E & H).
  fold self in H.
  assert (main sdk environ s = (s', SysExit 1)) as Em.
  { unfold main. cbv zeta. rewrite Hp. cbn [negb]. rewrite bind_eq. by rewrite E. }
  exists s'. split; [exact Em|]. split; [by rewrite Em|].
  destruct (oa_models_list _ _) as [e|u].
  - split; [by eapply Step_new_calls|by eapply Step_new_log].
  - destruct H as (e & He & S). exists e. split; [done|].
    split; [by eapply Step_new_calls|by eapply Step_new_log].
Qed.

Lemma X13_main_connection_check_fails_witness :
  (main Outage.sdk_destination_down Sample.environ Sample.boot).2 = SysExit 1 ∧
  new_calls Sample.boot
    (main Outage.sdk_destination_down Sample.environ Sample.boot).1
  = [OpenAI_models_list; Azure_models_list].
Proof.
  destruct (X13_main_connection_check_fails Outage.sdk_destination_down
              Sample.environ Sample.boot) as (s' & E & _ & H).
  - intros k Hk. unfold missing.
    repeat (apply elem_of_cons in Hk as [->|Hk]; [discriminate|]).
    by apply elem_of_nil in Hk.
  - discriminate.
  - rewrite E. split; [reflexivity|]. cbn [fst].
    destruct H as (e & _ & Hc & _). exact Hc.
Defined.

(** ** The summary *)

Lemma log_summary_Step items s :
  ∃ s', log_summary items s = (s', Return tt) ∧
        Step s s' ((λ p, (INFO, SummaryLine p.1 p.2)) <$> items) [] ∧
        files s' = files s ∧ slept s' = slept s.
Proof.
  revert s. induction items as [|[sid tid] items IH]; intros s; simpl.
  - exists s. split; [done|]. split; [apply Step_refl|done].
  - rewrite bind_eq. unfold logger_info at 1. cbv beta iota.
    destruct (IH (set_log (log s ++ [(INFO, SummaryLine sid tid)]) s))
      as (s' & E & S & F & Z).
    exists s'. split; [exact E|]. split; [|done].
    eapply (Step_trans_eq _ _ _ [(INFO, SummaryLine sid tid)] _ [] []);
      [|exact S|done..].
    step_tac.
Qed.

(** X14: once the migration has returned the mapping [m], [main] sends no
    further request: it logs the two heading lines, then one line per entry
    of [m], in the order of [m], then the number of entries, and returns,
    exit status 0. *)
Theorem X14_main_summary sdk (environ : gmap string string) s s1 self s2 m :
  (∀ k, k ∈ required_vars → ¬ missing environ k) →
  __init__ sdk (default EmptyString (environ !! "OPENAI_API_KEY"))
    (default EmptyString (environ !! "AZURE_OPENAI_API_KEY"))
    (default EmptyString (environ !! "AZURE_OPENAI_ENDPOINT"))
    "2023-12-01-preview" s = (s1, Return self) →
  migrate_all_assistants self s1 = (s2, Return m) →
  ∃ s3,
    main sdk environ s = (s3, Return tt) ∧
    exit_status (main sdk environ s).2 = 0%Z ∧
    new_log s2 s3 = summary_records m ∧
    new_calls s2 s3 = [] ∧
    files s3 = files s2 ∧ slept s3 = slept s2.
Proof.
  intros Hp Ei Em. apply all_present in Hp.
  assert (∃ s3, main sdk environ s = (s3, Return tt) ∧
                Step s2 s3 (summary_records m) [] ∧
                files s3 = files s2 ∧ slept s3 = slept s2)
    as (s3 & E & S3 & F & Z).
  { unfold main. cbv zeta. rewrite Hp. cbn [negb]. rewrite bind_eq, Ei.
    rewrite bind_eq, Em.
    do 2 (rewrite bind_eq; unfold logger_info at 1; cbv beta iota).
    rewrite bind_eq.
    match goal with
    | |- context [log_summary m ?st] =>
        destruct (log_summary_Step m st) as (s3 & -> & S & F & Z)
    end.
    unfold logger_info. eexists. split; [reflexivity|].
    cbn [files slept set_log]. rewrite F, Z. cbn [files slept set_log].
    split; [|done]. unfold summary_records.
    destruct S as [S1 S2 S3 S4]. cbn [tempdir writable log calls set_log] in *.
    split; cbn [tempdir writable log calls set_log]; try done.
    rewrite S3, <- !app_assoc. reflexivity. }
  exists s3. split; [exact E|]. split; [by rewrite E|].
  split; [by eapply Step_new_log|]. split; [by eapply Step_new_calls|done].
Qed.

Lemma X14_main_summary_witness :
  let cur := {| cur_items := [Sample.broken; Sample.plain]; cur_error := None |} in
  let sdk := Sample.sdk (inr cur) Sample.deployments true in
  let r := main sdk Sample.environ Sample.boot in
  r.2 = Return tt ∧
  [(INFO, SummaryLine "asst_2" "asst_azure_7"); (INFO, SummaryCount 1)]
    `suffix_of` log r.1.
Proof.
  intros cur sdk r.
  set (self := Sample.migrator (inr cur) Sample.deployments true).
  set (i := __init__ sdk
              (default EmptyString (Sample.environ !! "OPENAI_API_KEY"))
              (default EmptyString (Sample.environ !! "AZURE_OPENAI_API_KEY"))
              (default EmptyString (Sample.environ !! "AZURE_OPENAI_ENDPOINT"))
              "2023-12-01-preview" Sample.boot).
  destruct (X14_main_summary sdk Sample.environ Sample.boot i.1 self
              (migrate_all_assistants self i.1).1 [("asst_2", "asst_azure_7")])
    as (s3 & E & _ & Hlog & _).
  - intros k Hk Hm. unfold required_vars in Hk.
    repeat (apply elem_of_cons in Hk as [->|Hk]; [discriminate Hm|]).
    by apply elem_of_nil in Hk.
  - apply pair_from_snd. reflexivity.
  - apply pair_from_snd. vm_compute. reflexivity.
  - unfold r. rewrite E. split; [reflexivity|]. cbn [fst].
    exists (take (length (log (migrate_all_assistants self i.1).1)) (log s3)
            ++ [(INFO, Literal "Migration completed!");
                (INFO, Literal "Migration summary:")]).
    rewrite <- app_assoc.
    rewrite <- (take_drop (length (log (migrate_all_assistants self i.1).1)) (log s3)) at 1.
    f_equal. exact Hlog.
Defined.

(** ** Failed uploads *)











